(** * Flag-pattern scanner and outcome evaluator of [app_mar8_v2.py]

    A shallow embedding of the computational core of the script:
    [compute_rsi], [is_strong_flag], [is_above_ma50],
    [detect_flag_patterns] and [calculate_success_probability].

    - Python floats and the float64 cells of the data frame are IEEE 754
      binary64 numbers: [spec_float] at precision 53 and maximal exponent
      1024, with NaN, the two infinities and the two zeros.
    - Python integers (scan indices, positions) are [Z]; bar counts that the
      script only ever uses as sizes ([consolidation_days], [days_after],
      the rolling windows) are [nat].
    - A raising statement returns [Raise e]; the rest of the function is
      skipped, as in Python.
    - The data frame is the list of its rows, in row order; its index is
      the list of the rows' dates.  A date is the integer rank of its
      timestamp. *)

From Stdlib Require Import ZArith List Bool Lia Sorted.
From Stdlib Require Import Floats.SpecFloat.
Import ListNotations.

Open Scope Z_scope.

(** ** Binary64 numbers *)

Module F64.

Definition float := spec_float.

Definition prec : Z := 53.
Definition emax : Z := 1024.

Definition add : float -> float -> float := SFadd prec emax.
Definition sub : float -> float -> float := SFsub prec emax.
Definition mul : float -> float -> float := SFmul prec emax.
Definition div : float -> float -> float := SFdiv prec emax.
Definition opp : float -> float := SFopp.
Definition abs : float -> float := SFabs.

(** [ltb x y] is [x < y], [leb x y] is [x <= y]; any comparison with NaN
    is false. *)
Definition ltb : float -> float -> bool := SFltb.
Definition leb : float -> float -> bool := SFleb.
Definition eqb : float -> float -> bool := SFeqb.

Definition nan : float := S754_nan.
Definition zero : float := S754_zero false.
Definition neg_zero : float := S754_zero true.

Definition is_nan (x : float) : bool :=
  match x with S754_nan => true | _ => false end.

(** The double nearest to the integer [z], and to [m * 2^e]. *)
Definition of_Z (z : Z) : float := binary_normalize prec emax z 0 false.
Definition of_nat (n : nat) : float := of_Z (Z.of_nat n).
Definition dyadic (m e : Z) : float := binary_normalize prec emax m e false.

(** The double nearest to [a / b]: what a decimal literal such as
    [0.015] ([ratio 15 1000]) denotes. *)
Definition ratio (a b : Z) : float := div (of_Z a) (of_Z b).

End F64.

Import F64.

(** ** Exceptions *)

Inductive exn : Type :=
| ZeroDivisionError
| IndexError
| KeyError
| ValueError
| TypeError
| LinAlgError.

Inductive result (A : Type) : Type :=
| Ok (a : A)
| Raise (e : exn).

Arguments Ok {A} a.
Arguments Raise {A} e.

Definition bind {A B : Type} (r : result A) (k : A -> result B) : result B :=
  match r with
  | Ok a => k a
  | Raise e => Raise e
  end.

Notation "x <- r ;; k" := (bind r (fun x => k))
  (at level 61, r at next level, right associativity).

(** Division of two Python floats (the operands of lines 78 and 87 are
    [.item()] values): a zero divisor raises. *)
Definition py_div (x y : float) : result float :=
  if eqb y zero then Raise ZeroDivisionError else Ok (div x y).

(** ** Positional access *)

Definition len {A : Type} (l : list A) : Z := Z.of_nat (length l).

(** [l.iloc[i]] and [index[i]]: a negative position counts from the end,
    a position outside the rows raises. *)
Definition iloc {A : Type} (l : list A) (i : Z) : result A :=
  let j := if i <? 0 then i + len l else i in
  if (0 <=? j) && (j <? len l) then
    match nth_error l (Z.to_nat j) with
    | Some x => Ok x
    | None => Raise IndexError
    end
  else Raise IndexError.

(** [l.iloc[i:j]] for [0 <= i]: the rows at positions [i .. j-1] that
    exist. *)
Definition iloc_slice {A : Type} (l : list A) (i j : Z) : list A :=
  firstn (Z.to_nat (j - i)) (skipn (Z.to_nat i) l).

(** [range(lo, hi)]. *)
Definition py_range (lo hi : Z) : list Z :=
  map (fun k => lo + Z.of_nat k) (seq 0 (Z.to_nat (hi - lo))).

(** ** Data frame *)

Record bar : Type := mkBar {
  Date : Z;
  High : float;
  Low : float;
  Close : float
}.

Definition frame := list bar.

Definition index (data : frame) : list Z := map Date data.

(** ** Label-based access *)

(** [d in index]. *)
Definition mem (d : Z) (idx : list Z) : bool := existsb (Z.eqb d) idx.

(** The cells of a column at the rows labelled [d], in row order. *)
Definition loc {A : Type} (idx : list Z) (col : list A) (d : Z) : list A :=
  map snd (filter (fun p => Z.eqb (fst p) d) (combine idx col)).

(** The positions of the rows labelled [d]. *)
Definition positions (idx : list Z) (d : Z) : list Z :=
  loc idx (py_range 0 (len idx)) d.

(** ** Column reductions *)

(** [Series.max()] and [Series.min()] skip NaN cells and give NaN when no
    cell is left. *)
Definition nanmax (col : list float) : float :=
  fold_left (fun acc x =>
               if is_nan x then acc
               else if is_nan acc then x
               else if ltb acc x then x else acc) col nan.

Definition nanmin (col : list float) : float :=
  fold_left (fun acc x =>
               if is_nan x then acc
               else if is_nan acc then x
               else if ltb x acc then x else acc) col nan.

(** ** Indicators *)

(** [series.diff()]: the first cell is NaN. *)
Fixpoint diff_from (prev : float) (s : list float) : list float :=
  match s with
  | [] => []
  | x :: t => sub x prev :: diff_from x t
  end.

Definition diff (s : list float) : list float :=
  match s with
  | [] => []
  | x :: t => nan :: diff_from x t
  end.

(** [delta.where(delta > 0, 0)] and [-delta.where(delta < 0, 0)]: a cell
    where the condition is false, so also a NaN cell, becomes 0. *)
Definition gains (delta : list float) : list float :=
  map (fun d => if ltb zero d then d else zero) delta.

Definition losses (delta : list float) : list float :=
  map (fun d => opp (if ltb d zero then d else zero)) delta.

(** [s.rolling(window=w).mean()], as pandas computes it for a fixed
    window with [min_periods = window] ([roll_mean] of its window
    aggregations).  Infinite cells are first replaced by NaN.  The rows
    are visited in order with a running state: the number [nobs] of
    cells that are not NaN in the window, the number [neg_ct] of those
    with the sign bit set, a Kahan-compensated running sum, and the
    number of equal cells at the end of the window.  Entering a row
    removes the cells that left the window and adds the new one; the
    first row, and every row of a window of one cell or less, starts
    from a fresh state.  The cell of a row is NaN when [nobs] is below
    the window, the repeated value itself when every cell of the window
    is the same, and the running sum over [nobs] otherwise, clamped to 0
    when its sign contradicts the signs of the cells. *)

(** [np.isinf] and the C [signbit]. *)
Definition is_inf (x : float) : bool :=
  match x with S754_infinity _ => true | _ => false end.

Definition signbit (x : float) : bool :=
  match x with
  | S754_zero s | S754_infinity s | S754_finite s _ _ => s
  | S754_nan => false
  end.

(** The running state of [roll_mean]. *)
Record roller : Type := mkRoller {
  nobs : nat;
  neg_ct : nat;
  sum_x : float;
  compensation_add : float;
  compensation_remove : float;
  num_consecutive_same_value : nat;
  prev_value : float
}.

(** [add_mean]: a cell enters the window (a NaN cell is passed over). *)
Definition add_mean (r : roller) (val : float) : roller :=
  if is_nan val then r
  else
    let y := sub val (compensation_add r) in
    let t := add (sum_x r) y in
    mkRoller (S (nobs r))
             (if signbit val then S (neg_ct r) else neg_ct r)
             t
             (sub (sub t (sum_x r)) y)
             (compensation_remove r)
             (if eqb val (prev_value r)
              then S (num_consecutive_same_value r) else 1%nat)
             val.

(** [remove_mean]: a cell leaves the window. *)
Definition remove_mean (r : roller) (val : float) : roller :=
  if is_nan val then r
  else
    let y := sub (opp val) (compensation_remove r) in
    let t := add (sum_x r) y in
    mkRoller (nobs r - 1)
             (if signbit val then (neg_ct r - 1)%nat else neg_ct r)
             t
             (compensation_add r)
             (sub (sub t (sum_x r)) y)
             (num_consecutive_same_value r)
             (prev_value r).

(** [calc_mean]: the cell of the row, from the state. *)
Definition calc_mean (minp : nat) (r : roller) : float :=
  if (minp <=? nobs r)%nat && (0 <? nobs r)%nat then
    let result := div (sum_x r) (of_nat (nobs r)) in
    if (nobs r <=? num_consecutive_same_value r)%nat then prev_value r
    else if (neg_ct r =? 0)%nat && ltb result zero then zero
    else if (neg_ct r =? nobs r)%nat && ltb zero result then zero
    else result
  else nan.

(** The window of row [i]: the positions [start .. end - 1]. *)
Definition window_bounds (w i : nat) : nat * nat :=
  if (w =? 0)%nat then (i, i) else ((i + 1 - w)%nat, (i + 1)%nat).

(** [values[s:e]]. *)
Definition cells (values : list float) (s e : nat) : list float :=
  firstn (e - s) (skipn s values).

(** The state in which a window is set up at position [s]. *)
Definition fresh (values : list float) (s : nat) : roller :=
  mkRoller 0 0 zero zero zero 0 (nth s values nan).

(** The loop over the rows; [before] is the window of the previous row
    and the state it left. *)
Fixpoint roll (w : nat) (values : list float) (rows : list nat)
         (before : nat * nat * roller) : list float :=
  match rows with
  | [] => []
  | i :: rest =>
      let '(s0, e0, r0) := before in
      let (s, e) := window_bounds w i in
      let r :=
        if (i =? 0)%nat || (e0 <=? s)%nat
        then fold_left add_mean (cells values s e) (fresh values s)
        else fold_left add_mean (cells values e0 e)
                       (fold_left remove_mean (cells values s0 s) r0) in
      calc_mean w r :: roll w values rest (s, e, r)
  end.

Definition rolling_mean (w : nat) (s : list float) : list float :=
  let values := map (fun x => if is_inf x then nan else x) s in
  roll w values (seq 0 (length s)) (0%nat, 0%nat, fresh values 0).

Definition fillna0 (x : float) : float := if is_nan x then zero else x.

Definition hundred : float := of_Z 100.
Definition fifty : float := of_Z 50.
Definition one : float := of_Z 1.

(** The columns [gain] and [loss] of [compute_rsi]. *)
Definition gain (series : list float) (period : nat) : list float :=
  rolling_mean period (gains (diff series)).

Definition loss (series : list float) (period : nat) : list float :=
  rolling_mean period (losses (diff series)).

(** [100 - (100 / (1 + rs))] with [rs = gain / loss], cell by cell; the
    division is the IEEE one, which does not raise. *)
Definition rsi_of (g l : float) : float :=
  let rs := div g l in
  sub hundred (div hundred (add one rs)).

Definition compute_rsi (series : list float) (period : nat) : list float :=
  let rsi := map (fun gl => rsi_of (fst gl) (snd gl))
                 (combine (gain series period) (loss series period)) in
  map fillna0 rsi.

(** ** Confirmation filters *)

(** What a comparison returns: a scalar boolean when the label selects one
    row, a one-cell boolean Series when it selects several (the first of
    the selected rows is compared, as a row). *)
Inductive comparison : Type :=
| Scalar (b : bool)
| Rowwise (bs : list bool).

(** The truth value that [and] and [if] ask for: a Series has none. *)
Definition truth (c : comparison) : result bool :=
  match c with
  | Scalar b => Ok b
  | Rowwise _ => Raise ValueError
  end.

(** [a.loc[d].iloc[0] > b.loc[d].iloc[0]], for a label [d] of the index
    (the callers test [d in index] first, so that some row is selected). *)
Definition compare_at (idx : list Z) (smaller larger : list float) (d : Z)
  : comparison :=
  match loc idx (combine smaller larger) d with
  | [] => Scalar false
  | [(lo, hi)] => Scalar (ltb lo hi)
  | (lo, hi) :: _ => Rowwise [ltb lo hi]
  end.

Definition closes (data : frame) : list float := map Close data.

Definition is_strong_flag (data : frame) (flag_end_date : Z) : comparison :=
  let rsi := compute_rsi (closes data) 14 in
  if mem flag_end_date (index data) then
    compare_at (index data) (map (fun _ => fifty) rsi) rsi flag_end_date
  else Scalar false.

Definition is_above_ma50 (data : frame) (flag_end_date : Z) : comparison :=
  let ma50 := rolling_mean 50 (closes data) in
  if mem flag_end_date (index data) then
    compare_at (index data) ma50 (closes data) flag_end_date
  else Scalar false.

(** ** Pattern scanner *)

Inductive direction : Type := Bullish | Bearish.

Record PatternRecord : Type := mkPattern {
  date : Z;
  pole_start : Z;
  flag_end : Z;
  pole_price_change : float;
  consolidation_range : float;
  trend_direction : direction
}.

Section Scanner.

(** [np.polyfit(range(len(ys)), ys, 1)[0]]: the slope of the
    least-squares line through the points [(k, ys[k])], as numpy's
    solver rounds it; the solver raises on some inputs. *)
Variable polyfit_slope : list float -> result float.

Variable data : frame.
Variables pole_threshold flag_threshold : float.
Variable consolidation_days : nat.

Definition emit (i : Z) (flag_end_date : Z) (price_change price_range : float)
           (trend : direction) : result (option PatternRecord) :=
  d <- iloc (index data) i ;;
  ps <- iloc (index data) (i - 10) ;;
  Ok (Some (mkPattern d ps flag_end_date price_change price_range trend)).

(** The body of the loop at scan index [i]: the record appended to
    [flags], if any. *)
Definition examine (i : Z) : result (option PatternRecord) :=
  current_close <- iloc (closes data) i ;;
  past_close <- iloc (closes data) (i - 10) ;;
  price_change <- py_div (sub current_close past_close) past_close ;;
  if ltb pole_threshold (abs price_change) then
    let trend_direction := if ltb zero price_change then Bullish else Bearish in
    let consolidation_period :=
      iloc_slice data i (i + Z.of_nat consolidation_days) in
    let high_price := nanmax (map High consolidation_period) in
    let low_price := nanmin (map Low consolidation_period) in
    price_range <- py_div (sub high_price low_price) low_price ;;
    if ltb price_range flag_threshold then
      flag_slope <- polyfit_slope (closes consolidation_period) ;;
      match trend_direction with
      | Bullish =>
          if leb flag_slope zero then
            flag_end_date <- iloc (index data) (i + Z.of_nat consolidation_days) ;;
            strong <- truth (is_strong_flag data flag_end_date) ;;
            confirmed <- (if strong
                          then truth (is_above_ma50 data flag_end_date)
                          else Ok false) ;;
            if confirmed
            then emit i flag_end_date price_change price_range trend_direction
            else Ok None
          else Ok None
      | Bearish =>
          if ltb zero flag_slope then
            flag_end_date <- iloc (index data) (i + Z.of_nat consolidation_days) ;;
            emit i flag_end_date price_change price_range trend_direction
          else Ok None
      end
    else Ok None
  else Ok None.

(** The loop, with [flags] as it stands before the remaining indices. *)
Fixpoint scan (indices : list Z) (flags : list PatternRecord)
  : result (list PatternRecord) :=
  match indices with
  | [] => Ok flags
  | i :: rest =>
      r <- examine i ;;
      scan rest (match r with Some f => flags ++ [f] | None => flags end)
  end.

Definition scan_indices : list Z :=
  py_range 10 (len data - Z.of_nat consolidation_days - 1).

Definition detect_flag_patterns : result (list PatternRecord) :=
  scan scan_indices [].

End Scanner.

(** ** Outcome evaluator *)

(** A row of the pattern table (lines 173-182).  The three dates are
    stored through [strftime('%Y-%m-%d')] and the type through
    [capitalize()]; the record keeps the date and the direction that
    these strings denote.  The two percentages are stored rounded to two
    decimals. *)
Record OutcomeRecord : Type := mkOutcome {
  pattern_start_date : Z;
  pole_end_date : Z;
  flag_end_date : Z;
  flag_type : direction;
  price_change_pct : float;
  success : bool;
  days_after_ : nat;
  threshold_pct : float
}.

(** The counters and the list that the loop updates. *)
Record tally : Type := mkTally {
  bullish_success : nat;
  bearish_success : nat;
  valid_bullish : nat;
  valid_bearish : nat;
  pattern_details : list OutcomeRecord
}.

Definition tally0 : tally := mkTally 0 0 0 0 [].

Fixpoint monotonic_increasing (idx : list Z) : bool :=
  match idx with
  | [] => true
  | x :: t =>
      match t with
      | [] => true
      | y :: _ => (x <=? y) && monotonic_increasing t
      end
  end.

(** [index.get_loc(d)] as line 151 uses it: an integer when one row is
    labelled [d]; with several rows it is a slice (sorted index) or a
    boolean mask, and line 151 raises on [slice + int] or on the truth
    value of an array. *)
Definition get_loc (idx : list Z) (d : Z) : result Z :=
  match positions idx d with
  | [] => Raise KeyError
  | [k] => Ok k
  | _ => Raise (if monotonic_increasing idx then TypeError else ValueError)
  end.

Section Evaluator.

(** [round(x, 2)] of a numpy float64 (line 178, on [price_change * 100])
    and of a Python float (line 181, on [threshold * 100]): the two
    library roundings are taken as they are. *)
Variable np_round2 : float -> float.
Variable py_round2 : float -> float.

Variable data : frame.
Variable days_after : nat.
Variable threshold : float.

Definition succeeded (trend : direction) (change : float) : bool :=
  match trend with
  | Bullish => leb threshold change
  | Bearish => leb change (opp threshold)
  end.

(** One pass of the loop body: [None] is a [continue]. *)
Definition evaluate (flag : PatternRecord) : result (option OutcomeRecord) :=
  let flag_end_date := flag_end flag in
  if negb (mem flag_end_date (index data)) then Ok None
  else
    flag_end_idx <- get_loc (index data) flag_end_date ;;
    if len data <=? flag_end_idx + Z.of_nat days_after then Ok None
    else
      future_price <- iloc (closes data) (flag_end_idx + Z.of_nat days_after) ;;
      flag_end_price <- iloc (loc (index data) (closes data) flag_end_date) 0 ;;
      let price_change := div (sub future_price flag_end_price) flag_end_price in
      Ok (Some (mkOutcome (pole_start flag) (date flag) (flag_end flag)
                          (trend_direction flag)
                          (np_round2 (mul price_change hundred))
                          (succeeded (trend_direction flag) price_change)
                          days_after
                          (py_round2 (mul threshold hundred)))).

Definition count (t : tally) (row : OutcomeRecord) : tally :=
  match flag_type row with
  | Bullish =>
      mkTally ((if success row then 1 else 0) + bullish_success t)%nat
              (bearish_success t)
              (1 + valid_bullish t)%nat
              (valid_bearish t)
              (pattern_details t ++ [row])
  | Bearish =>
      mkTally (bullish_success t)
              ((if success row then 1 else 0) + bearish_success t)%nat
              (valid_bullish t)
              (1 + valid_bearish t)%nat
              (pattern_details t ++ [row])
  end.

Fixpoint evaluate_all (flags : list PatternRecord) (t : tally) : result tally :=
  match flags with
  | [] => Ok t
  | flag :: rest =>
      r <- evaluate flag ;;
      evaluate_all rest (match r with Some row => count t row | None => t end)
  end.

(** [s / v if v > 0 else 0] on two counters. *)
Definition rate (s v : nat) : float :=
  if (0 <? v)%nat then div (of_nat s) (of_nat v) else zero.

(** [df_patterns['Price Change (%)'].sum()] of line 190: a frame built
    from no row has no column. *)
Definition total_change (rows : list OutcomeRecord) : result float :=
  match rows with
  | [] => Raise KeyError
  | _ => Ok (fold_left add (map price_change_pct rows) zero)
  end.

Definition calculate_success_probability (flags : list PatternRecord)
  : result (float * float * list OutcomeRecord) :=
  match flags with
  | [] => Ok (zero, zero, [])
  | _ =>
      t <- evaluate_all flags tally0 ;;
      let bullish_prob := rate (bullish_success t) (valid_bullish t) in
      let bearish_prob := rate (bearish_success t) (valid_bearish t) in
      _ <- total_change (pattern_details t) ;;
      Ok (bullish_prob, bearish_prob, pattern_details t)
  end.

End Evaluator.

(** ** The pipeline of [main] *)

(** Lines 348-352: the scanner at its default thresholds and ten
    consolidation bars, then the evaluator at its default threshold on
    the patterns found; [days_after] is the horizon chosen in the
    sidebar. *)
Definition main_core (np_round2 py_round2 : float -> float)
           (polyfit_slope : list float -> result float) (data : frame)
           (days_after : nat) : result (float * float * list OutcomeRecord) :=
  flags <- detect_flag_patterns polyfit_slope data (ratio 15 1000) (ratio 25 1000) 10 ;;
  calculate_success_probability np_round2 py_round2 data days_after (ratio 1 10000) flags.

(** ** Sample inputs *)

(** The closed form of the least-squares slope over [x = 0, 1, ...],
    evaluated in binary64: the slope function with which the scanner is
    run on the sample series below.  On those, the sign of the slope is
    far from the rounding error of any solver. *)
Definition fsum (l : list float) : float := fold_left add l zero.

Definition lsq_slope (ys : list float) : result float :=
  match ys with
  | [] => Raise TypeError
  | _ =>
      let n := of_nat (length ys) in
      let xs := map of_nat (seq 0 (length ys)) in
      let sx := fsum xs in
      let sy := fsum ys in
      let sxy := fsum (map (fun p => mul (fst p) (snd p)) (combine xs ys)) in
      let sxx := fsum (map (fun x => mul x x) xs) in
      Ok (div (sub (mul n sxy) (mul sx sy)) (sub (mul n sxx) (mul sx sx)))
  end.

(** Rounding to two decimals by numpy's recipe: multiply by 100, round to
    the nearest integer with ties to the even one, divide by 100.  It
    stands for both roundings when the evaluator is run on the sample
    series. *)
Definition rint (x : float) : float :=
  match x with
  | S754_finite s m e =>
      if 0 <=? e then x
      else
        let d := 2 ^ (- e) in
        let q := Zpos m / d in
        let r := Zpos m mod d in
        let n := match 2 * r ?= d with
                 | Lt => q
                 | Gt => q + 1
                 | Eq => if Z.even q then q else q + 1
                 end in
        if n =? 0 then S754_zero s else of_Z (if s then - n else n)
  | _ => x
  end.

Definition round2 (x : float) : float := div (rint (mul x hundred)) hundred.

(** Bars with [High = Low = Close], prices given in eighths, dated by
    their position. *)
Definition eighths (m : Z) : float := dyadic m (-3).

Definition bars_from (first : Z) (prices : list Z) : frame :=
  map (fun p => let c := eighths (snd p) in mkBar (first + fst p) c c c)
      (combine (py_range 0 (len prices)) prices).

Definition pole_threshold_default : float := ratio 15 1000.
Definition flag_threshold_default : float := ratio 25 1000.
Definition threshold_default : float := ratio 1 10000.

(** A fall of one point a bar over bars 0..10, a drift upwards by an
    eighth a bar over bars 11..19, then [tail] bars at 189. *)
Definition falling_prices (tail : nat) : list Z :=
  map (fun k => 1600 - 8 * k) (py_range 0 11)
  ++ map (fun k => 1520 + k) (py_range 1 10)
  ++ repeat 1512 tail.

Definition falling (tail : nat) : frame := bars_from 0 (falling_prices tail).

(** A rise of one point a bar over bars 0..55, a drift downwards by an
    eighth a bar over bars 56..64, then two bars at 156. *)
Definition rising_prices : list Z :=
  map (fun k => 800 + 8 * k) (py_range 0 56)
  ++ map (fun k => 1240 - k) (py_range 1 10)
  ++ [1248; 1248].

Definition rising : frame := bars_from 0 rising_prices.



(** A close that only rises, a point a bar. *)
Definition climb : list float := map (fun k => of_Z (100 + k)) (py_range 0 20).

(** The records that the scanner finds in [falling] and in [rising],
    at the thresholds above and ten consolidation bars. *)
Definition falling_pattern : PatternRecord :=
  mkPattern 10 0 20
            (S754_finite true 7205759403792794 (-57))
            (S754_finite false 6826508908856331 (-60))
            Bearish.

Definition rising_pattern : PatternRecord :=
  mkPattern 54 44 64
            (S754_finite false 5003999585967218 (-56))
            (S754_finite false 7486503276667838 (-60))
            Bullish.

Definition rising_pattern_next : PatternRecord :=
  mkPattern 55 45 65
            (S754_finite false 4969489243995030 (-56))
            (S754_finite false 8429158035305949 (-60))
            Bullish.



(** The fall with every row dated 0, and with a first Close of 0. *)
Definition undated (tail : nat) : frame :=
  map (fun b => mkBar 0 (High b) (Low b) (Close b)) (falling tail).

Definition undated_pattern : PatternRecord :=
  mkPattern 0 0 0
            (S754_finite true 7205759403792794 (-57))
            (S754_finite false 6826508908856331 (-60))
            Bearish.


(** Twenty bars at 100. *)
Definition flat : frame := bars_from 0 (repeat 800 20).

(** A fall with its consolidation (rows 0..21), then a rise of one point a
    row and its consolidation (rows 22..88): the scanner finds two
    Bearish and two Bullish patterns in it. *)
Definition mixed_prices : list Z :=
  map (fun k => 1600 - 8 * k) (py_range 0 11)
  ++ map (fun k => 1520 + k) (py_range 1 10)
  ++ [1512; 1504]
  ++ map (fun k => 1504 + 8 * k) (py_range 1 57)
  ++ map (fun k => 1952 - k) (py_range 1 10)
  ++ [1960; 1960].

Definition mixed : frame := bars_from 0 mixed_prices.

Definition mixed_patterns : list PatternRecord :=
  [ mkPattern 10 0 20
              (S754_finite true 7205759403792794 (-57))
              (S754_finite false 6826508908856331 (-60)) Bearish;
    mkPattern 11 1 21
              (S754_finite true 6427247709413170 (-57))
              (S754_finite false 6481370892300396 (-59)) Bearish;
    mkPattern 76 66 86
              (S754_finite false 6185201204972355 (-57))
              (S754_finite false 4744532940768918 (-60)) Bullish;
    mkPattern 77 67 87
              (S754_finite false 6158768721190422 (-57))
              (S754_finite false 5340346650263316 (-60)) Bullish ].

(** ** Vocabulary of the statements *)

(** The cell of a column at the row labelled [d], when exactly one row
    has that label. *)
Definition value_at {A : Type} (idx : list Z) (col : list A) (d : Z) : option A :=
  match loc idx col d with
  | [x] => Some x
  | _ => None
  end.

(** Dates in ascending order, without repetition. *)
Fixpoint strictly_increasing (idx : list Z) : bool :=
  match idx with
  | [] => true
  | x :: t =>
      match t with
      | [] => true
      | y :: _ => (x <? y) && strictly_increasing t
      end
  end.

(** The rows of the pattern table: one for each pattern that the loop
    does not skip, in the order of the patterns. *)
Definition rows_of (np_round2 py_round2 : float -> float)
           (data : frame) (days_after : nat) (threshold : float)
           (flags : list PatternRecord) : list OutcomeRecord :=
  flat_map (fun flag => match evaluate np_round2 py_round2 data days_after threshold flag with
                        | Ok (Some row) => [row]
                        | _ => []
                        end) flags.

Definition is_bullish (row : OutcomeRecord) : bool :=
  match flag_type row with Bullish => true | Bearish => false end.

Definition is_bearish (row : OutcomeRecord) : bool :=
  match flag_type row with Bullish => false | Bearish => true end.

(** How many rows satisfy [p]. *)
Definition how_many (p : OutcomeRecord -> bool) (rows : list OutcomeRecord) : nat :=
  length (filter p rows).

(** The forward change of a pattern, in the words of the specification:
    the pattern is valid when its [flag_end] labels one row [k] of the
    series and row [k + days_after] exists, and its change is then that
    of the Close from row [k] to row [k + days_after], relative to the
    Close of row [k]. *)
Definition forward_change (data : frame) (days_after : nat) (f : PatternRecord)
  : option float :=
  match positions (index data) (flag_end f) with
  | [k] =>
      match nth_error (closes data) (Z.to_nat k),
            nth_error (closes data) (Z.to_nat k + days_after) with
      | Some now, Some future => Some (div (sub future now) now)
      | _, _ => None
      end
  | _ => None
  end.

(** The success rule of the specification: a Bullish pattern succeeds
    when its change is at least the threshold, a Bearish one when it is
    at most the negated threshold. *)
Definition successful (threshold : float) (f : PatternRecord) (change : float) : bool :=
  match trend_direction f with
  | Bullish => leb threshold change
  | Bearish => leb change (opp threshold)
  end.

(** The valid patterns of a list, each with its forward change, in the
    order of the list. *)
Definition valid_patterns (data : frame) (days_after : nat)
           (flags : list PatternRecord) : list (PatternRecord * float) :=
  flat_map (fun f => match forward_change data days_after f with
                     | Some change => [(f, change)]
                     | None => []
                     end) flags.

Definition has_direction (d : direction) (f : PatternRecord) : bool :=
  match trend_direction f, d with
  | Bullish, Bullish | Bearish, Bearish => true
  | _, _ => false
  end.

(** The valid count and the success count of a direction. *)
Definition valid_count (d : direction) (valid : list (PatternRecord * float)) : nat :=
  length (filter (fun fc => has_direction d (fst fc)) valid).

Definition success_count (threshold : float) (d : direction)
           (valid : list (PatternRecord * float)) : nat :=
  length (filter (fun fc => has_direction d (fst fc)
                            && successful threshold (fst fc) (snd fc)) valid).

(** [r] is the quotient of the two counts, and 0 when nothing was
    counted. *)
Definition is_rate (r : float) (successes valid : nat) : Prop :=
  (valid = 0%nat -> r = zero) /\
  ((0 < valid)%nat -> r = div (of_nat successes) (of_nat valid)).

(** Pairwise distinct dates. *)
Fixpoint distinct (idx : list Z) : bool :=
  match idx with
  | [] => true
  | x :: t => negb (mem x t) && distinct t
  end.

(** No Close and no Low of the series is zero. *)
Definition no_zero_price (data : frame) : bool :=
  forallb (fun b => negb (eqb (Close b) zero) && negb (eqb (Low b) zero)) data.


(** What the loop body appends at scan index [i]. *)
Definition found_at (polyfit_slope : list float -> result float) (data : frame)
           (pole_threshold flag_threshold : float) (consolidation_days : nat)
           (i : Z) : list PatternRecord :=
  match examine polyfit_slope data pole_threshold flag_threshold
                consolidation_days i with
  | Ok (Some f) => [f]
  | _ => []
  end.

(** The measurements behind a record anchored at scan index [i]: the
    pole change over the ten rows before [i], the range of the
    consolidation window that starts at [i], and the slope fitted to the
    window's closes. *)
Record measured (polyfit_slope : list float -> result float) (data : frame)
       (pt ft : float) (cd : nat) (i : Z) (f : PatternRecord) : Prop := {
  measured_pole :
    exists cur past,
      nth_error (closes data) (Z.to_nat i) = Some cur /\
      nth_error (closes data) (Z.to_nat i - 10) = Some past /\
      eqb past zero = false /\
      pole_price_change f = div (sub cur past) past;
  measured_pole_size : ltb pt (abs (pole_price_change f)) = true;
  measured_direction :
    trend_direction f = if ltb zero (pole_price_change f) then Bullish else Bearish;
  measured_range :
    let window := iloc_slice data i (i + Z.of_nat cd) in
    let high := nanmax (map High window) in
    let low := nanmin (map Low window) in
    eqb low zero = false /\
    consolidation_range f = div (sub high low) low;
  measured_range_size : ltb (consolidation_range f) ft = true;
  measured_slope :
    exists slope,
      polyfit_slope (closes (iloc_slice data i (i + Z.of_nat cd))) = Ok slope /\
      match trend_direction f with
      | Bullish => leb slope zero = true
      | Bearish => ltb zero slope = true
      end
}.

(** The same date labels two rows. *)
Definition repeated (idx : list Z) (d : Z) : Prop :=
  exists a b : nat, a <> b /\ nth_error idx a = Some d /\ nth_error idx b = Some d.

(** The row that the evaluator makes of a pattern bears the pattern's
    dates and direction. *)
Definition row_of (f : PatternRecord) (row : OutcomeRecord) : Prop :=
  pattern_start_date row = pole_start f /\
  pole_end_date row = date f /\
  flag_end_date row = flag_end f /\
  flag_type row = trend_direction f.

(** The row of a valid pattern: the pattern's dates and direction, its
    forward change in percent, rounded, and whether it succeeded. *)
Definition outcome_of (np_round2 : float -> float) (threshold : float)
           (fc : PatternRecord * float) (row : OutcomeRecord) : Prop :=
  row_of (fst fc) row /\
  price_change_pct row = np_round2 (mul (snd fc) hundred) /\
  success row = successful threshold (fst fc) (snd fc).

(** What line 151 raises at a date that labels several rows. *)
Definition ambiguous_position (idx : list Z) : exn :=
  if monotonic_increasing idx then TypeError else ValueError.

(** A zero of either sign, and a running state of [roll_mean] that has
    only met zeros. *)
Definition zeroish (x : float) : Prop := x = zero \/ x = neg_zero.

Record still (r : roller) : Prop := {
  still_sum : zeroish (sum_x r);
  still_add : zeroish (compensation_add r);
  still_remove : zeroish (compensation_remove r);
  still_prev : zeroish (prev_value r) \/ prev_value r = nan
}.

(** The facts that hold of every record the loop body appends at scan
    index [i]. *)
Record anchored (data : frame) (ft : float) (cd : nat) (i : Z) (f : PatternRecord) : Prop := {
  anchored_date : iloc (index data) i = Ok (date f);
  anchored_pole_start : iloc (index data) (i - 10) = Ok (pole_start f);
  anchored_flag_end : iloc (index data) (i + Z.of_nat cd) = Ok (flag_end f);
  anchored_window : cd <> 0%nat;
  anchored_range : ltb (consolidation_range f) ft = true;
  anchored_confirmed :
    trend_direction f = Bullish ->
    is_strong_flag data (flag_end f) = Scalar true /\
    is_above_ma50 data (flag_end f) = Scalar true
}.

(** * Properties *)

(** ** Binary64 facts *)

Lemma ltb_nan_l (x : float) : ltb nan x = false.
Proof. reflexivity. Qed.

Lemma ltb_nan_r (x : float) : ltb x nan = false.
Proof. destruct x; reflexivity. Qed.

Lemma eqb_zero_cases (x : float) :
  eqb x zero = true -> x = zero \/ x = neg_zero.
Proof.
  destruct x as [[|]| | |s m e]; cbn; try discriminate; auto.
  - destruct s; discriminate.
  - destruct s; discriminate.
Qed.

Lemma fillna0_not_nan (x : float) : is_nan (fillna0 x) = false.
Proof. destruct x; reflexivity. Qed.

(** ** Results *)

Lemma bind_ok {A B : Type} (r : result A) (k : A -> result B) (b : B) :
  bind r k = Ok b -> exists a, r = Ok a /\ k a = Ok b.
Proof. destruct r as [a|e]; cbn; [eauto | discriminate]. Qed.

Ltac inv_bind H :=
  let x := fresh "x" in
  let Hx := fresh "Hx" in
  apply bind_ok in H; destruct H as (x & Hx & H).

(** ** Ranges and positions *)

Lemma in_py_range (lo hi i : Z) : In i (py_range lo hi) <-> lo <= i < hi.
Proof.
  unfold py_range. rewrite in_map_iff. split.
  - intros (k & <- & Hk). apply in_seq in Hk. lia.
  - intros H. exists (Z.to_nat (i - lo)). split; [lia|].
    apply in_seq. lia.
Qed.

Lemma length_py_range (lo hi : Z) : length (py_range lo hi) = Z.to_nat (hi - lo).
Proof. unfold py_range. now rewrite length_map, length_seq. Qed.

Lemma nth_error_py_range (lo hi : Z) (k : nat) (x : Z) :
  nth_error (py_range lo hi) k = Some x -> x = lo + Z.of_nat k.
Proof.
  unfold py_range. rewrite nth_error_map.
  destruct (nth_error (seq 0 (Z.to_nat (hi - lo))) k) as [j|] eqn:E; [|discriminate].
  cbn. intros [= <-].
  assert (Hk : (k < length (seq 0 (Z.to_nat (hi - lo))))%nat)
    by (apply nth_error_Some; congruence).
  rewrite length_seq in Hk.
  apply (nth_error_nth _ _ 0%nat) in E. rewrite seq_nth in E by assumption. lia.
Qed.

Lemma iloc_inv {A : Type} (l : list A) (i : Z) (x : A) :
  iloc l i = Ok x -> 0 <= i ->
  i < len l /\ nth_error l (Z.to_nat i) = Some x.
Proof.
  unfold iloc. intros H Hi.
  destruct (Z.ltb_spec i 0); [lia|].
  destruct (Z.leb_spec 0 i); [|lia].
  destruct (Z.ltb_spec i (len l)); cbn in H; [|discriminate].
  destruct (nth_error l (Z.to_nat i)); [|discriminate].
  split; [assumption | congruence].
Qed.

Lemma iloc_in_bounds {A : Type} (l : list A) (i : Z) :
  0 <= i < len l -> exists x, iloc l i = Ok x /\ nth_error l (Z.to_nat i) = Some x.
Proof.
  unfold iloc, len. intros H.
  destruct (Z.ltb_spec i 0); [lia|].
  destruct (Z.leb_spec 0 i); [|lia].
  destruct (Z.ltb_spec i (Z.of_nat (length l))); [|lia]. cbn.
  destruct (nth_error l (Z.to_nat i)) eqn:E; [eauto|].
  apply nth_error_None in E. lia.
Qed.

Lemma len_map {A B : Type} (f : A -> B) (l : list A) : len (map f l) = len l.
Proof. unfold len. now rewrite length_map. Qed.

(** ** Columns and labels *)

Lemma nth_error_combine {A B : Type} (l1 : list A) (l2 : list B) (k : nat) (a : A) (b : B) :
  nth_error (combine l1 l2) k = Some (a, b) <->
  nth_error l1 k = Some a /\ nth_error l2 k = Some b.
Proof.
  revert l2 k. induction l1 as [|x l1 IH]; intros [|y l2] [|k]; cbn;
    try (split; [discriminate | intros [? ?]; discriminate]).
  - split; [intros [= -> ->]; auto | intros [[= ->] [= ->]]; auto].
  - apply IH.
Qed.

Lemma in_loc {A : Type} (idx : list Z) (col : list A) (d : Z) (k : nat) (x : A) :
  nth_error idx k = Some d -> nth_error col k = Some x -> In x (loc idx col d).
Proof.
  intros Hd Hx. unfold loc. apply in_map_iff. exists (d, x). split; [reflexivity|].
  apply filter_In. split; [|cbn; apply Z.eqb_refl].
  apply nth_error_In with k. now apply nth_error_combine.
Qed.

Lemma loc_in {A : Type} (idx : list Z) (col : list A) (d : Z) (x : A) :
  In x (loc idx col d) ->
  exists k, nth_error idx k = Some d /\ nth_error col k = Some x.
Proof.
  unfold loc. rewrite in_map_iff. intros ([d' x'] & Hx & Hin). cbn in Hx. subst x'.
  apply filter_In in Hin. destruct Hin as [Hin Hd]. cbn in Hd.
  apply Z.eqb_eq in Hd. subst d'.
  apply In_nth_error in Hin. destruct Hin as [k Hk].
  exists k. now apply nth_error_combine.
Qed.

Lemma loc_fst {A B : Type} (idx : list Z) (a : list A) (b : list B) (d : Z) :
  length a = length idx -> length b = length idx ->
  loc idx a d = map fst (loc idx (combine a b) d).
Proof.
  revert a b. induction idx as [|i idx IH]; intros [|x a] [|y b]; cbn; try discriminate; auto.
  intros [= Ha] [= Hb]. unfold loc in *. cbn.
  destruct (Z.eqb i d); cbn; now rewrite (IH a b).
Qed.

Lemma loc_snd {A B : Type} (idx : list Z) (a : list A) (b : list B) (d : Z) :
  length a = length idx -> length b = length idx ->
  loc idx b d = map snd (loc idx (combine a b) d).
Proof.
  revert a b. induction idx as [|i idx IH]; intros [|x a] [|y b]; cbn; try discriminate; auto.
  intros [= Ha] [= Hb]. unfold loc in *. cbn.
  destruct (Z.eqb i d); cbn; now rewrite (IH a b).
Qed.

Lemma mem_true (d : Z) (idx : list Z) : mem d idx = true <-> In d idx.
Proof.
  unfold mem. rewrite existsb_exists. split.
  - intros (x & Hx & E). apply Z.eqb_eq in E. now subst.
  - intros H. exists d. split; [assumption | apply Z.eqb_refl].
Qed.

(** ** The evaluator on an empty pattern list *)

(** C7: with no pattern to evaluate, [calculate_success_probability]
    returns the rates 0.0 and 0.0 and an empty table, whatever the series,
    the horizon and the threshold; it raises nothing and the loop over the
    patterns is not entered. *)
Theorem empty_patterns_give_zero_rates
        (np_round2 py_round2 : float -> float)
        (data : frame) (days_after : nat) (threshold : float) :
  calculate_success_probability np_round2 py_round2 data days_after threshold [] = Ok (zero, zero, []).
Proof. reflexivity. Qed.

(** ** The momentum column *)

Lemma length_roll w values rows before : length (roll w values rows before) = length rows.
Proof.
  revert before. induction rows as [|i rest IH]; intros [[s0 e0] r0]; cbn; [reflexivity|].
  destruct (window_bounds w i) as [s e]. cbn. now rewrite IH.
Qed.

Lemma length_rolling_mean (w : nat) (s : list float) :
  length (rolling_mean w s) = length s.
Proof. unfold rolling_mean. now rewrite length_roll, length_seq. Qed.

Lemma nobs_add_mean (r : roller) (v : float) :
  (nobs (add_mean r v) <= S (nobs r))%nat.
Proof. unfold add_mean. destruct (is_nan v); cbn; lia. Qed.

Lemma nobs_remove_mean (r : roller) (v : float) :
  (nobs (remove_mean r v) <= nobs r)%nat.
Proof. unfold remove_mean. destruct (is_nan v); cbn; lia. Qed.

Lemma nobs_add (l : list float) :
  forall r, (nobs (fold_left add_mean l r) <= nobs r + length l)%nat.
Proof.
  induction l as [|v l IH]; intros r; cbn [fold_left length]; [lia|].
  specialize (IH (add_mean r v)). pose proof (nobs_add_mean r v). lia.
Qed.

Lemma nobs_remove (l : list float) :
  forall r, (nobs (fold_left remove_mean l r) <= nobs r)%nat.
Proof.
  induction l as [|v l IH]; intros r; cbn [fold_left]; [lia|].
  specialize (IH (remove_mean r v)). pose proof (nobs_remove_mean r v). lia.
Qed.

Lemma length_cells values s e : (length (cells values s e) <= e - s)%nat.
Proof. unfold cells. rewrite length_firstn. lia. Qed.

Lemma calc_mean_short (w : nat) (r : roller) :
  (nobs r < w)%nat -> calc_mean w r = nan.
Proof.
  intros H. unfold calc_mean.
  destruct (Nat.leb_spec w (nobs r)); [lia | reflexivity].
Qed.

(** Before row [a] the state has met at most [a] cells, one a row. *)
Lemma roll_warm_up (w : nat) (values : list float) (n : nat) :
  forall a s0 e0 r0 k x,
    (a = 0%nat \/ (a <= e0 /\ nobs r0 <= a)%nat \/ w = 0%nat) ->
    nth_error (roll w values (seq a n) (s0, e0, r0)) k = Some x ->
    (a + k + 1 < w)%nat -> x = nan.
Proof.
  induction n as [|n IH]; intros a s0 e0 r0 k x Hinv H Hk; [destruct k; discriminate|].
  cbn [seq roll] in H.
  destruct (window_bounds w a) as [s e] eqn:Hb.
  unfold window_bounds in Hb. destruct (Nat.eqb_spec w 0); [lia|].
  injection Hb as <- <-.
  set (r := if (a =? 0)%nat || (e0 <=? a + 1 - w)%nat
            then fold_left add_mean (cells values (a + 1 - w) (a + 1)) (fresh values (a + 1 - w))
            else fold_left add_mean (cells values e0 (a + 1))
                   (fold_left remove_mean (cells values s0 (a + 1 - w)) r0)) in *.
  assert (Hr : (nobs r <= a + 1)%nat).
  { subst r. destruct ((a =? 0)%nat || (e0 <=? a + 1 - w)%nat) eqn:E.
    - pose proof (nobs_add (cells values (a + 1 - w) (a + 1)) (fresh values (a + 1 - w))).
      pose proof (length_cells values (a + 1 - w) (a + 1)). cbn in *. lia.
    - apply orb_false_iff in E. destruct E as [Ea _]. apply Nat.eqb_neq in Ea.
      destruct Hinv as [-> | [[He Hn] | ->]]; [lia | | lia].
      pose proof (nobs_add (cells values e0 (a + 1))
                    (fold_left remove_mean (cells values s0 (a + 1 - w)) r0)).
      pose proof (nobs_remove (cells values s0 (a + 1 - w)) r0).
      pose proof (length_cells values e0 (a + 1)). lia. }
  destruct k as [|k]; cbn in H.
  - injection H as <-. apply calc_mean_short. lia.
  - apply (IH (S a) _ _ _ k x) in H; [assumption | | lia].
    right. left. lia.
Qed.

Lemma rolling_mean_warm_up (w : nat) (s : list float) (k : nat) (x : float) :
  nth_error (rolling_mean w s) k = Some x -> (k + 1 < w)%nat -> x = nan.
Proof.
  unfold rolling_mean. intros H Hk.
  apply (roll_warm_up w _ _ 0%nat _ _ _ k x) in H; [assumption | now left | lia].
Qed.

Lemma length_diff_from (p : float) (s : list float) :
  length (diff_from p s) = length s.
Proof. revert p. induction s as [|x s IH]; intros p; cbn; [reflexivity | now rewrite IH]. Qed.

Lemma length_diff (s : list float) : length (diff s) = length s.
Proof. destruct s; cbn; [reflexivity | now rewrite length_diff_from]. Qed.

Lemma length_gain (s : list float) (p : nat) : length (gain s p) = length s.
Proof.
  unfold gain, gains. now rewrite length_rolling_mean, length_map, length_diff.
Qed.

Lemma length_loss (s : list float) (p : nat) : length (loss s p) = length s.
Proof.
  unfold loss, losses. now rewrite length_rolling_mean, length_map, length_diff.
Qed.

Lemma length_compute_rsi (s : list float) (p : nat) :
  length (compute_rsi s p) = length s.
Proof.
  unfold compute_rsi.
  rewrite !length_map, length_combine, length_gain, length_loss. lia.
Qed.

Lemma nth_error_compute_rsi (s : list float) (p k : nat) (g l : float) :
  nth_error (gain s p) k = Some g -> nth_error (loss s p) k = Some l ->
  nth_error (compute_rsi s p) k = Some (fillna0 (rsi_of g l)).
Proof.
  intros Hg Hl. unfold compute_rsi. rewrite !nth_error_map.
  assert (E : nth_error (combine (gain s p) (loss s p)) k = Some (g, l))
    by now apply nth_error_combine.
  now rewrite E.
Qed.

Lemma rsi_of_zero_zero (g l : float) :
  eqb g zero = true -> eqb l zero = true -> fillna0 (rsi_of g l) = zero.
Proof.
  intros Hg Hl.
  destruct (eqb_zero_cases g Hg) as [-> | ->], (eqb_zero_cases l Hl) as [-> | ->];
    reflexivity.
Qed.

Lemma rsi_of_no_loss (g l : float) :
  ltb zero g = true -> eqb l zero = true -> fillna0 (rsi_of g l) = hundred.
Proof.
  intros Hg Hl.
  destruct (eqb_zero_cases l Hl) as [-> | ->];
    destruct g as [sg|sg| |sg m e]; try discriminate Hg;
    destruct sg; try discriminate Hg; vm_compute; reflexivity.
Qed.

(** C2, as the code has it: every row of the series has a momentum cell,
    and the cell is never NaN.  It is 0 where the rolling window is not
    yet full, and 0 where the average gain and the average loss over the
    window are both zero (the quotient 0/0 is the NaN that [fillna]
    replaces).  Where the average loss is zero and the average gain is
    positive, the quotient is infinite and the cell is 100. *)
Theorem rsi_cells (series : list float) (period k : nat) :
  (k < length series)%nat ->
  exists g l x,
    nth_error (gain series period) k = Some g /\
    nth_error (loss series period) k = Some l /\
    nth_error (compute_rsi series period) k = Some x /\
    is_nan x = false /\
    ((k + 1 < period)%nat -> x = zero) /\
    (eqb g zero = true -> eqb l zero = true -> x = zero) /\
    (ltb zero g = true -> eqb l zero = true -> x = hundred).
Proof.
  intros Hk.
  destruct (nth_error (gain series period) k) as [g|] eqn:Hg.
  2: { apply nth_error_None in Hg. rewrite length_gain in Hg. lia. }
  destruct (nth_error (loss series period) k) as [l|] eqn:Hl.
  2: { apply nth_error_None in Hl. rewrite length_loss in Hl. lia. }
  exists g, l, (fillna0 (rsi_of g l)).
  repeat split.
  - now apply nth_error_compute_rsi.
  - apply fillna0_not_nan.
  - intros Hw. apply rolling_mean_warm_up in Hg; [|assumption]. now subst g.
  - apply rsi_of_zero_zero.
  - apply rsi_of_no_loss.
Qed.

Lemma rsi_cells_witness :
  (13 < length climb)%nat /\
  exists g l x,
    nth_error (gain climb 14) 13 = Some g /\
    nth_error (loss climb 14) 13 = Some l /\
    nth_error (compute_rsi climb 14) 13 = Some x /\
    is_nan x = false /\
    ((13 + 1 < 14)%nat -> x = zero) /\
    (eqb g zero = true -> eqb l zero = true -> x = zero) /\
    (ltb zero g = true -> eqb l zero = true -> x = hundred).
Proof.
  assert (H : (13 < length climb)%nat) by (vm_compute; lia).
  split; [exact H | exact (rsi_cells climb 14 13 H)].
Defined.

(** C2 fails as stated: over a close that only rises the average loss is
    zero (the negative zero of a window of cells [-0.0]) at row 13, the
    first row with a full window, and the momentum there is 100, not 0. *)
Lemma rsi_is_100_without_losses :
  nth_error (loss climb 14) 13 = Some neg_zero /\
  eqb neg_zero zero = true /\
  nth_error (compute_rsi climb 14) 13 = Some hundred /\
  eqb hundred zero = false.
Proof. vm_compute. repeat split. Qed.

(** ** The scanner, one index at a time *)

Lemma truth_true (c : comparison) (b : bool) : truth c = Ok b -> c = Scalar b.
Proof. destruct c; cbn; [intros [= ->]; reflexivity | discriminate]. Qed.

Lemma py_div_ok (x y q : float) : py_div x y = Ok q -> q = div x y /\ eqb y zero = false.
Proof.
  unfold py_div. destruct (eqb y zero); [discriminate|]. intros [= <-]. auto.
Qed.

Lemma empty_window_range (ft : float) :
  forall q, py_div (sub (nanmax []) (nanmin [])) (nanmin []) = Ok q -> ltb q ft = false.
Proof. intros q H. apply py_div_ok in H. destruct H as [-> _]. reflexivity. Qed.

Section ScannerFacts.

Variable polyfit_slope : list float -> result float.
Variable data : frame.
Variables pole_threshold flag_threshold : float.
Variable consolidation_days : nat.

Let examine_ := examine polyfit_slope data pole_threshold flag_threshold consolidation_days.
Let scan_ := scan polyfit_slope data pole_threshold flag_threshold consolidation_days.

Lemma emit_some (i fe : Z) (pc pr : float) (t : direction) (f : PatternRecord) :
  emit data i fe pc pr t = Ok (Some f) ->
  iloc (index data) i = Ok (date f) /\
  iloc (index data) (i - 10) = Ok (pole_start f) /\
  flag_end f = fe /\ consolidation_range f = pr /\ trend_direction f = t.
Proof.
  unfold emit. intros H. inv_bind H. inv_bind H.
  injection H as <-. cbn. auto.
Qed.

Lemma examine_some (i : Z) (f : PatternRecord) :
  examine_ i = Ok (Some f) ->
  anchored data flag_threshold consolidation_days i f.
Proof.
  unfold examine_, examine. intros H.
  inv_bind H. inv_bind H. inv_bind H.
  destruct (ltb pole_threshold (abs x1)); [|discriminate].
  assert (Hcd : consolidation_days <> 0%nat).
  { intros E. rewrite E in H. cbn [Z.of_nat] in H.
    unfold iloc_slice in H. replace (i + 0 - i) with 0 in H by lia.
    cbn [Z.to_nat firstn map] in H. inv_bind H.
    apply (empty_window_range flag_threshold) in Hx2. rewrite Hx2 in H. discriminate. }
  inv_bind H.
  destruct (ltb x2 flag_threshold) eqn:Hrange; [|discriminate].
  inv_bind H.
  destruct (ltb zero x1).
  - destruct (leb x3 zero); [|discriminate].
    inv_bind H. inv_bind H. inv_bind H.
    destruct x6; [|discriminate].
    destruct x5; [|discriminate].
    apply truth_true in Hx5, Hx6.
    apply emit_some in H. destruct H as (Hd & Hp & Hfe & Hr & Ht).
    subst x4. rewrite <- Hr in Hrange.
    constructor; auto.
  - destruct (ltb zero x3); [|discriminate].
    inv_bind H.
    apply emit_some in H. destruct H as (Hd & Hp & Hfe & Hr & Ht).
    subst x4. rewrite <- Hr in Hrange.
    constructor; auto.
    intros E. congruence.
Qed.

(** Every record of the result was appended by the loop body at one of
    the indices, or was in the list before. *)
Lemma scan_records (indices : list Z) :
  forall acc flags, scan_ indices acc = Ok flags ->
  forall f, In f flags ->
    In f acc \/ exists i, In i indices /\ examine_ i = Ok (Some f).
Proof.
  induction indices as [|i rest IH]; intros acc flags H f Hf.
  - injection H as <-. auto.
  - cbn in H. inv_bind H. fold scan_ in H.
    destruct (IH _ _ H f Hf) as [Hacc | (j & Hj & Hex)].
    + destruct x as [g|].
      * apply in_app_or in Hacc. destruct Hacc as [Hacc | [<- | []]]; [auto|].
        right. exists i. split; [now left | exact Hx].
      * auto.
    + right. exists j. split; [now right | exact Hex].
Qed.

Lemma detect_records (flags : list PatternRecord) (f : PatternRecord) :
  detect_flag_patterns polyfit_slope data pole_threshold flag_threshold consolidation_days
    = Ok flags ->
  In f flags ->
  exists i, 10 <= i <= len data - Z.of_nat consolidation_days - 2 /\
            examine_ i = Ok (Some f) /\
            anchored data flag_threshold consolidation_days i f.
Proof.
  unfold detect_flag_patterns. intros H Hf.
  destruct (scan_records _ _ _ H f Hf) as [[] | (i & Hi & Hex)].
  exists i. unfold scan_indices in Hi. apply in_py_range in Hi.
  split; [lia|]. split; [exact Hex | now apply examine_some].
Qed.

End ScannerFacts.

(** ** The scan range *)

Lemma scan_indices_bounds (data : frame) (cd : nat) (i : Z) :
  In i (scan_indices data cd) <-> 10 <= i <= len data - Z.of_nat cd - 2.
Proof. unfold scan_indices. rewrite in_py_range. lia. Qed.

(** C1, as the code has it: the scan indices are those from 10 through
    [len(data) - consolidation_days - 2] inclusive (the bound
    [len(data) - consolidation_days - 1] of the range is exclusive), and
    every record found is anchored at one of them.  So the first 10 rows
    and the last [consolidation_days + 1] rows never anchor a pattern. *)
Theorem scan_range_and_anchors
        (polyfit_slope : list float -> result float) (data : frame)
        (pole_threshold flag_threshold : float) (consolidation_days : nat) :
  (forall i, In i (scan_indices data consolidation_days) <->
             10 <= i <= len data - Z.of_nat consolidation_days - 2) /\
  (forall flags f,
      detect_flag_patterns polyfit_slope data pole_threshold flag_threshold
                           consolidation_days = Ok flags ->
      In f flags ->
      exists i, 10 <= i <= len data - Z.of_nat consolidation_days - 2 /\
                In i (scan_indices data consolidation_days) /\
                iloc (index data) i = Ok (date f)).
Proof.
  split; [apply scan_indices_bounds|].
  intros flags f H Hf.
  destruct (detect_records _ _ _ _ _ _ _ H Hf) as (i & Hi & _ & Ha).
  exists i. split; [exact Hi|]. split; [now apply scan_indices_bounds|].
  apply Ha.
Qed.

Lemma falling_detected :
  detect_flag_patterns lsq_slope (falling 2) pole_threshold_default
                       flag_threshold_default 10 = Ok [falling_pattern].
Proof. vm_compute. reflexivity. Qed.

Lemma rising_detected :
  detect_flag_patterns lsq_slope rising pole_threshold_default
                       flag_threshold_default 10
  = Ok [rising_pattern; rising_pattern_next].
Proof. vm_compute. reflexivity. Qed.

Lemma scan_range_and_anchors_witness :
  detect_flag_patterns lsq_slope (falling 2) pole_threshold_default
                       flag_threshold_default 10 = Ok [falling_pattern] /\
  In falling_pattern [falling_pattern] /\
  exists i, 10 <= i <= len (falling 2) - Z.of_nat 10 - 2 /\
            In i (scan_indices (falling 2) 10) /\
            iloc (index (falling 2)) i = Ok (date falling_pattern).
Proof.
  assert (H : detect_flag_patterns lsq_slope (falling 2) pole_threshold_default
                flag_threshold_default 10 = Ok [falling_pattern])
    by (vm_compute; reflexivity).
  assert (Hin : In falling_pattern [falling_pattern]) by (simpl; auto).
  split; [exact H|]. split; [exact Hin|].
  exact (proj2 (scan_range_and_anchors lsq_slope (falling 2) pole_threshold_default
                  flag_threshold_default 10) [falling_pattern] falling_pattern H Hin).
Defined.

(** C1 fails as stated: in a series of 21 rows scanned with ten
    consolidation bars, index [len - consolidation_days - 1 = 10] is not
    examined, although the loop body would find a pattern there; the
    scanner returns no record. *)
Lemma last_claimed_index_not_scanned :
  len (falling 1) - Z.of_nat 10 - 1 = 10 /\
  ~ In 10 (scan_indices (falling 1) 10) /\
  examine lsq_slope (falling 1) pole_threshold_default flag_threshold_default 10 10
    = Ok (Some falling_pattern) /\
  detect_flag_patterns lsq_slope (falling 1) pole_threshold_default
                       flag_threshold_default 10 = Ok [].
Proof.
  split; [reflexivity|]. split; [|split; vm_compute; reflexivity].
  rewrite scan_indices_bounds. vm_compute. intros [_ H]. now apply H.
Qed.

(** ** Confirmation of bullish records *)

Lemma compare_at_true (idx : list Z) (a b : list float) (d : Z) :
  length a = length idx -> length b = length idx ->
  compare_at idx a b d = Scalar true ->
  exists lo hi, value_at idx a d = Some lo /\ value_at idx b d = Some hi /\
                ltb lo hi = true.
Proof.
  intros Ha Hb. unfold compare_at, value_at.
  rewrite (loc_fst idx a b d Ha Hb), (loc_snd idx a b d Ha Hb).
  destruct (loc idx (combine a b) d) as [|[lo hi] [|q rest]]; cbn; try discriminate.
  intros [= E]. eauto.
Qed.

Lemma value_at_in {A : Type} (idx : list Z) (col : list A) (d : Z) (x : A) :
  value_at idx col d = Some x ->
  loc idx col d = [x] /\ exists k, nth_error idx k = Some d /\ nth_error col k = Some x.
Proof.
  unfold value_at. destruct (loc idx col d) as [|y [|z rest]] eqn:E; try discriminate.
  intros [= ->]. split; [reflexivity|]. apply loc_in. rewrite E. now left.
Qed.

Lemma length_closes (data : frame) : length (closes data) = length (index data).
Proof. unfold closes, index. now rewrite !length_map. Qed.

Lemma strong_flag_true (data : frame) (d : Z) :
  is_strong_flag data d = Scalar true ->
  exists r, value_at (index data) (compute_rsi (closes data) 14) d = Some r /\
            ltb fifty r = true.
Proof.
  unfold is_strong_flag. destruct (mem d (index data)); [|discriminate].
  intros H. apply compare_at_true in H.
  - destruct H as (lo & hi & Hlo & Hhi & Hlt). exists hi. split; [exact Hhi|].
    apply value_at_in in Hlo. destruct Hlo as (_ & k & _ & Hk).
    apply nth_error_In, in_map_iff in Hk. destruct Hk as (_ & <- & _). exact Hlt.
  - now rewrite length_map, length_compute_rsi, length_closes.
  - now rewrite length_compute_rsi, length_closes.
Qed.

Lemma above_ma50_true (data : frame) (d : Z) :
  is_above_ma50 data d = Scalar true ->
  exists m c, value_at (index data) (rolling_mean 50 (closes data)) d = Some m /\
              value_at (index data) (closes data) d = Some c /\
              ltb m c = true.
Proof.
  unfold is_above_ma50. destruct (mem d (index data)); [|discriminate].
  intros H. apply compare_at_true in H; [exact H| |apply length_closes].
  now rewrite length_rolling_mean, length_closes.
Qed.

(** C3: every Bullish record of the result has, at its [flag_end] date, a
    14-period momentum above 50 and a Close above the 50-bar moving
    average, both computed over the whole series.  A Bearish record needs
    neither: the one found in [falling 2] has momentum at most 50 and no
    moving average to be above. *)
Theorem bullish_records_are_confirmed :
  (forall (polyfit_slope : list float -> result float) (data : frame)
          (pole_threshold flag_threshold : float) (consolidation_days : nat)
          (flags : list PatternRecord) (f : PatternRecord),
      detect_flag_patterns polyfit_slope data pole_threshold flag_threshold
                           consolidation_days = Ok flags ->
      In f flags ->
      trend_direction f = Bullish ->
      exists r m c,
        value_at (index data) (compute_rsi (closes data) 14) (flag_end f) = Some r /\
        ltb fifty r = true /\
        value_at (index data) (rolling_mean 50 (closes data)) (flag_end f) = Some m /\
        value_at (index data) (closes data) (flag_end f) = Some c /\
        ltb m c = true) /\
  (detect_flag_patterns lsq_slope (falling 2) pole_threshold_default
                        flag_threshold_default 10 = Ok [falling_pattern] /\
   trend_direction falling_pattern = Bearish /\
   is_strong_flag (falling 2) (flag_end falling_pattern) = Scalar false /\
   is_above_ma50 (falling 2) (flag_end falling_pattern) = Scalar false).
Proof.
  split.
  - intros fit data pt ft cd flags f H Hf Hb.
    destruct (detect_records _ _ _ _ _ _ _ H Hf) as (i & _ & _ & Ha).
    destruct (anchored_confirmed _ _ _ _ _ Ha Hb) as [Hs Hm].
    apply strong_flag_true in Hs. destruct Hs as (r & Hr & Hlt).
    apply above_ma50_true in Hm. destruct Hm as (m & c & Hm & Hc & Hmc).
    exists r, m, c. auto.
  - split; [exact falling_detected|]. vm_compute. auto.
Qed.

Lemma bullish_records_are_confirmed_witness :
  detect_flag_patterns lsq_slope rising pole_threshold_default
                       flag_threshold_default 10
  = Ok [rising_pattern; rising_pattern_next] /\
  In rising_pattern [rising_pattern; rising_pattern_next] /\
  trend_direction rising_pattern = Bullish /\
  exists r m c,
    value_at (index rising) (compute_rsi (closes rising) 14) (flag_end rising_pattern)
      = Some r /\
    ltb fifty r = true /\
    value_at (index rising) (rolling_mean 50 (closes rising)) (flag_end rising_pattern)
      = Some m /\
    value_at (index rising) (closes rising) (flag_end rising_pattern) = Some c /\
    ltb m c = true.
Proof.
  assert (H : detect_flag_patterns lsq_slope rising pole_threshold_default
                flag_threshold_default 10 = Ok [rising_pattern; rising_pattern_next])
    by (vm_compute; reflexivity).
  assert (Hin : In rising_pattern [rising_pattern; rising_pattern_next])
    by (simpl; auto).
  assert (Hb : trend_direction rising_pattern = Bullish) by reflexivity.
  split; [exact H|]. split; [exact Hin|]. split; [exact Hb|].
  exact (proj1 bullish_records_are_confirmed lsq_slope rising pole_threshold_default
           flag_threshold_default 10%nat _ rising_pattern H Hin Hb).
Defined.

(** ** Dates of a record *)

Lemma increasing_head (x : Z) (t : list Z) :
  strictly_increasing (x :: t) = true -> forall y, In y t -> x < y.
Proof.
  revert x. induction t as [|z t IH]; intros x H y Hy; [destruct Hy|].
  cbn [strictly_increasing] in H. apply andb_true_iff in H. destruct H as [Hxz Ht].
  apply Z.ltb_lt in Hxz. destruct Hy as [<- | Hy]; [assumption|].
  specialize (IH z Ht y Hy). lia.
Qed.

Lemma increasing_tail (x : Z) (t : list Z) :
  strictly_increasing (x :: t) = true -> strictly_increasing t = true.
Proof.
  destruct t as [|z t]; [reflexivity|]. cbn [strictly_increasing].
  intros H. apply andb_true_iff in H. apply H.
Qed.

Lemma increasing_positions (idx : list Z) :
  strictly_increasing idx = true ->
  forall a b x y, (a < b)%nat ->
    nth_error idx a = Some x -> nth_error idx b = Some y -> x < y.
Proof.
  induction idx as [|h t IH]; intros H a b x y Hab Ha Hb.
  - destruct a; discriminate.
  - destruct b as [|b]; [lia|]. cbn in Hb. destruct a as [|a].
    + cbn in Ha. injection Ha as <-.
      apply (increasing_head h t H). now apply nth_error_In with b.
    + cbn in Ha. apply (IH (increasing_tail _ _ H) a b); [lia | assumption..].
Qed.

(** C4: on a series whose dates ascend, every record of the result has
    [pole_start < date < flag_end]; [pole_start] is the date exactly 10
    rows before the row of [date], [flag_end] the date exactly
    [consolidation_days] rows after it, and the three are dates of the
    series. *)
Theorem pattern_dates_are_ordered
        (polyfit_slope : list float -> result float) (data : frame)
        (pole_threshold flag_threshold : float) (consolidation_days : nat)
        (flags : list PatternRecord) (f : PatternRecord) :
  strictly_increasing (index data) = true ->
  detect_flag_patterns polyfit_slope data pole_threshold flag_threshold
                       consolidation_days = Ok flags ->
  In f flags ->
  exists i : nat,
    nth_error (index data) (i - 10) = Some (pole_start f) /\
    nth_error (index data) i = Some (date f) /\
    nth_error (index data) (i + consolidation_days) = Some (flag_end f) /\
    (10 <= i)%nat /\ (1 <= consolidation_days)%nat /\
    (i + consolidation_days < length data)%nat /\
    pole_start f < date f < flag_end f /\
    In (pole_start f) (index data) /\ In (date f) (index data) /\
    In (flag_end f) (index data).
Proof.
  intros Hs H Hf.
  destruct (detect_records _ _ _ _ _ _ _ H Hf) as (i & Hi & _ & Ha).
  destruct Ha as [Hd Hp He Hcd _ _].
  apply iloc_inv in Hd; [|lia]. apply iloc_inv in Hp; [|lia]. apply iloc_inv in He; [|lia].
  destruct Hd as [_ Hd], Hp as [_ Hp], He as [Hlen He].
  unfold len, index in Hlen. rewrite length_map in Hlen.
  replace (Z.to_nat (i - 10)) with (Z.to_nat i - 10)%nat in Hp by lia.
  replace (Z.to_nat (i + Z.of_nat consolidation_days))
    with (Z.to_nat i + consolidation_days)%nat in He by lia.
  exists (Z.to_nat i). repeat split; try assumption; try lia.
  - apply (increasing_positions _ Hs (Z.to_nat i - 10) (Z.to_nat i)); [lia | assumption..].
  - apply (increasing_positions _ Hs (Z.to_nat i) (Z.to_nat i + consolidation_days));
      [lia | assumption..].
  - eapply nth_error_In; eassumption.
  - eapply nth_error_In; eassumption.
  - eapply nth_error_In; eassumption.
Qed.

Lemma pattern_dates_are_ordered_witness :
  strictly_increasing (index (falling 2)) = true /\
  detect_flag_patterns lsq_slope (falling 2) pole_threshold_default
                       flag_threshold_default 10 = Ok [falling_pattern] /\
  In falling_pattern [falling_pattern] /\
  exists i : nat,
    nth_error (index (falling 2)) (i - 10) = Some (pole_start falling_pattern) /\
    nth_error (index (falling 2)) i = Some (date falling_pattern) /\
    nth_error (index (falling 2)) (i + 10) = Some (flag_end falling_pattern) /\
    (10 <= i)%nat /\ (1 <= 10)%nat /\
    (i + 10 < length (falling 2))%nat /\
    pole_start falling_pattern < date falling_pattern < flag_end falling_pattern /\
    In (pole_start falling_pattern) (index (falling 2)) /\
    In (date falling_pattern) (index (falling 2)) /\
    In (flag_end falling_pattern) (index (falling 2)).
Proof.
  assert (Hs : strictly_increasing (index (falling 2)) = true) by (vm_compute; reflexivity).
  assert (H : detect_flag_patterns lsq_slope (falling 2) pole_threshold_default
                flag_threshold_default 10 = Ok [falling_pattern])
    by (vm_compute; reflexivity).
  assert (Hin : In falling_pattern [falling_pattern]) by (simpl; auto).
  split; [exact Hs|]. split; [exact H|]. split; [exact Hin|].
  exact (pattern_dates_are_ordered lsq_slope (falling 2) pole_threshold_default
           flag_threshold_default 10 [falling_pattern] falling_pattern Hs H Hin).
Defined.

(** ** The moving-average gate near the start of the series *)

Lemma in_first_rows (data : frame) (n : nat) (d : Z) :
  In d (index (firstn n data)) ->
  exists p, (p < n)%nat /\ nth_error (index data) p = Some d.
Proof.
  unfold index. rewrite <- firstn_map. intros H.
  apply In_nth_error in H. destruct H as [p Hp].
  rewrite nth_error_firstn in Hp.
  destruct (Nat.ltb_spec p n); [|discriminate]. eauto.
Qed.

Lemma no_average_before_row_49 (data : frame) (d : Z) (m : float) :
  value_at (index data) (rolling_mean 50 (closes data)) d = Some m ->
  In d (index (firstn 49 data)) ->
  m = nan.
Proof.
  intros Hm Hd. apply in_first_rows in Hd. destruct Hd as (p & Hp & Hidx).
  apply value_at_in in Hm. destruct Hm as [Hloc _].
  destruct (nth_error (rolling_mean 50 (closes data)) p) as [x|] eqn:Hx.
  - assert (x = nan) by (apply (rolling_mean_warm_up _ _ _ _ Hx); lia). subst x.
    pose proof (in_loc _ _ _ _ _ Hidx Hx) as Hin. rewrite Hloc in Hin.
    destruct Hin as [-> | []]. reflexivity.
  - apply nth_error_None in Hx. rewrite length_rolling_mean, length_closes in Hx.
    assert (p < length (index data))%nat by (apply nth_error_Some; congruence). lia.
Qed.

(** C10: no Bullish record of the result has its [flag_end] among the
    first 49 rows: the 50-bar average is NaN there and the comparison of
    the Close with it is false.  A Bearish record may: the one found in
    [falling 2] ends at row 20. *)
Theorem no_bullish_record_before_row_49 :
  (forall (polyfit_slope : list float -> result float) (data : frame)
          (pole_threshold flag_threshold : float) (consolidation_days : nat)
          (flags : list PatternRecord) (f : PatternRecord),
      detect_flag_patterns polyfit_slope data pole_threshold flag_threshold
                           consolidation_days = Ok flags ->
      In f flags ->
      trend_direction f = Bullish ->
      ~ In (flag_end f) (index (firstn 49 data))) /\
  (detect_flag_patterns lsq_slope (falling 2) pole_threshold_default
                        flag_threshold_default 10 = Ok [falling_pattern] /\
   trend_direction falling_pattern = Bearish /\
   nth_error (index (falling 2)) 20 = Some (flag_end falling_pattern) /\
   In (flag_end falling_pattern) (index (firstn 49 (falling 2)))).
Proof.
  split.
  - intros fit data pt ft cd flags f H Hf Hb Hearly.
    destruct (detect_records _ _ _ _ _ _ _ H Hf) as (i & _ & _ & Ha).
    destruct (anchored_confirmed _ _ _ _ _ Ha Hb) as [_ Hm].
    apply above_ma50_true in Hm. destruct Hm as (m & c & Hm & _ & Hmc).
    rewrite (no_average_before_row_49 _ _ _ Hm Hearly) in Hmc.
    rewrite ltb_nan_l in Hmc. discriminate.
  - split; [exact falling_detected|]. split; [reflexivity|]. split; [reflexivity|].
    vm_compute. tauto.
Qed.

Lemma no_bullish_record_before_row_49_witness :
  detect_flag_patterns lsq_slope rising pole_threshold_default
                       flag_threshold_default 10
  = Ok [rising_pattern; rising_pattern_next] /\
  In rising_pattern [rising_pattern; rising_pattern_next] /\
  trend_direction rising_pattern = Bullish /\
  ~ In (flag_end rising_pattern) (index (firstn 49 rising)).
Proof.
  assert (H : detect_flag_patterns lsq_slope rising pole_threshold_default
                flag_threshold_default 10 = Ok [rising_pattern; rising_pattern_next])
    by (vm_compute; reflexivity).
  assert (Hin : In rising_pattern [rising_pattern; rising_pattern_next])
    by (simpl; auto).
  assert (Hb : trend_direction rising_pattern = Bullish) by reflexivity.
  split; [exact H|]. split; [exact Hin|]. split; [exact Hb|].
  exact (proj1 no_bullish_record_before_row_49 lsq_slope rising pole_threshold_default
           flag_threshold_default 10%nat _ rising_pattern H Hin Hb).
Defined.

(** ** Labels that select one row *)

Lemma loc_absent {A : Type} (idx : list Z) (col : list A) (d : Z) :
  ~ In d idx -> loc idx col d = [].
Proof.
  intros H. destruct (loc idx col d) as [|x rest] eqn:E; [reflexivity|].
  exfalso. apply H. destruct (loc_in idx col d x) as (k & Hk & _).
  - rewrite E. now left.
  - now apply nth_error_In with k.
Qed.

Lemma loc_unique {A : Type} (idx : list Z) (col : list A) (d : Z) :
  NoDup idx -> In d idx -> length col = length idx ->
  exists x, loc idx col d = [x].
Proof.
  revert col. induction idx as [|i idx IH]; intros col Hnd Hd Hlen; [destruct Hd|].
  destruct col as [|c col]; [discriminate|]. injection Hlen as Hlen.
  inversion Hnd as [|? ? Hni Hnd']; subst.
  unfold loc. cbn. destruct (Z.eqb_spec i d) as [->|Hne]; cbn.
  - exists c. fold (loc idx col d). now rewrite (loc_absent idx col d Hni).
  - destruct Hd as [Hd|Hd]; [contradiction|]. now apply IH.
Qed.

Lemma positions_single {A : Type} (idx : list Z) (col : list A) (d k : Z) :
  positions idx d = [k] -> length col = length idx ->
  exists x, loc idx col d = [x] /\ 0 <= k < len idx /\
            nth_error idx (Z.to_nat k) = Some d /\
            nth_error col (Z.to_nat k) = Some x.
Proof.
  unfold positions. intros Hp Hlen.
  assert (Hr : length (py_range 0 (len idx)) = length idx)
    by (rewrite length_py_range; unfold len; lia).
  rewrite (loc_fst idx _ col d Hr Hlen) in Hp.
  rewrite (loc_snd idx (py_range 0 (len idx)) col d Hr Hlen).
  destruct (loc idx (combine (py_range 0 (len idx)) col) d) as [|[k' x] [|q rest]] eqn:E;
    try discriminate.
  injection Hp as ->. exists x. split; [reflexivity|].
  destruct (loc_in idx (combine (py_range 0 (len idx)) col) d (k, x))
    as (p & Hd & Hkx); [rewrite E; now left|].
  apply nth_error_combine in Hkx. destruct Hkx as [Hk Hx].
  apply nth_error_py_range in Hk. subst k.
  assert (p < length idx)%nat by (apply nth_error_Some; congruence).
  replace (Z.to_nat (0 + Z.of_nat p)) with p by lia.
  unfold len. repeat split; try assumption; lia.
Qed.

Lemma positions_of_label (idx : list Z) (d : Z) (k : nat) :
  NoDup idx -> nth_error idx k = Some d -> positions idx d = [Z.of_nat k].
Proof.
  intros Hnd Hk.
  assert (Hr : length (py_range 0 (len idx)) = length idx)
    by (rewrite length_py_range; unfold len; lia).
  destruct (loc_unique idx (py_range 0 (len idx)) d Hnd) as [x Hx];
    [now apply nth_error_In with k | exact Hr |].
  unfold positions. rewrite Hx. f_equal.
  assert (Hlt : (k < length idx)%nat) by (apply nth_error_Some; congruence).
  destruct (nth_error (py_range 0 (len idx)) k) as [y|] eqn:Hy.
  - pose proof (in_loc _ _ _ _ _ Hk Hy) as Hin. rewrite Hx in Hin.
    destruct Hin as [-> | []]. apply nth_error_py_range in Hy. lia.
  - apply nth_error_None in Hy. lia.
Qed.

(** ** The evaluator, one pattern at a time *)

Section EvaluatorFacts.

Variables np_round2 py_round2 : float -> float.
Variable data : frame.
Variable days_after : nat.
Variable threshold : float.

Let evaluate_ := evaluate np_round2 py_round2 data days_after threshold.

Lemma get_loc_ok (d k : Z) :
  get_loc (index data) d = Ok k -> positions (index data) d = [k].
Proof.
  unfold get_loc. destruct (positions (index data) d) as [|p [|q rest]]; try discriminate.
  now intros [= ->].
Qed.

Lemma evaluate_some (flag : PatternRecord) (row : OutcomeRecord) :
  evaluate_ flag = Ok (Some row) ->
  exists (k : nat) (now future : float),
    positions (index data) (flag_end flag) = [Z.of_nat k] /\
    nth_error (index data) k = Some (flag_end flag) /\
    (k + days_after < length data)%nat /\
    nth_error (closes data) k = Some now /\
    nth_error (closes data) (k + days_after) = Some future /\
    row = mkOutcome (pole_start flag) (date flag) (flag_end flag)
                    (trend_direction flag)
                    (np_round2 (mul (div (sub future now) now) hundred))
                    (succeeded threshold (trend_direction flag)
                               (div (sub future now) now))
                    days_after (py_round2 (mul threshold hundred)).
Proof.
  unfold evaluate_, evaluate. intros H.
  destruct (mem (flag_end flag) (index data)); cbn [negb] in H; [|discriminate].
  inv_bind H. apply get_loc_ok in Hx.
  destruct (positions_single _ (closes data) _ _ Hx (length_closes data))
    as (now & Hloc & Hk & Hidx & Hnow).
  destruct (Z.leb_spec (len data) (x + Z.of_nat days_after)); [discriminate|].
  inv_bind H. inv_bind H. injection H as <-.
  rewrite Hloc in Hx1. injection Hx1 as <-.
  unfold closes in Hx0. apply iloc_inv in Hx0; [|lia]. destruct Hx0 as [_ Hfut].
  fold (closes data) in Hfut.
  exists (Z.to_nat x), now, x0.
  replace (Z.of_nat (Z.to_nat x)) with x by lia.
  replace (Z.to_nat (x + Z.of_nat days_after))
    with (Z.to_nat x + days_after)%nat in Hfut by lia.
  unfold len in *. repeat split; try assumption. lia.
Qed.

(** A pattern whose [flag_end] is not a date of the series is skipped. *)
Lemma evaluate_absent (flag : PatternRecord) :
  ~ In (flag_end flag) (index data) -> evaluate_ flag = Ok None.
Proof.
  intros H. unfold evaluate_, evaluate.
  destruct (mem (flag_end flag) (index data)) eqn:E; [|reflexivity].
  apply mem_true in E. contradiction.
Qed.

(** A pattern without a row [days_after] rows after its [flag_end] is
    skipped. *)
Lemma evaluate_late (flag : PatternRecord) (k : Z) :
  positions (index data) (flag_end flag) = [k] ->
  len data <= k + Z.of_nat days_after ->
  evaluate_ flag = Ok None.
Proof.
  intros Hp Hk. unfold evaluate_, evaluate.
  destruct (mem (flag_end flag) (index data)); [|reflexivity]. cbn [negb].
  unfold get_loc. rewrite Hp. cbn.
  destruct (Z.leb_spec (len data) (k + Z.of_nat days_after)); [reflexivity | lia].
Qed.

(** With distinct dates the loop body does not raise. *)
Lemma evaluate_returns (flag : PatternRecord) :
  NoDup (index data) -> exists r, evaluate_ flag = Ok r.
Proof.
  intros Hnd. unfold evaluate_, evaluate.
  destruct (mem (flag_end flag) (index data)) eqn:E; cbn [negb]; [|eauto].
  apply mem_true in E. apply In_nth_error in E. destruct E as [k Hk].
  pose proof (positions_of_label _ _ _ Hnd Hk) as Hp.
  unfold get_loc. rewrite Hp. cbn.
  destruct (Z.leb_spec (len data) (Z.of_nat k + Z.of_nat days_after)); [eauto|].
  destruct (iloc_in_bounds (closes data) (Z.of_nat k + Z.of_nat days_after))
    as (fut & -> & _).
  { unfold len in *. rewrite length_closes. unfold index. rewrite length_map. lia. }
  destruct (positions_single _ (closes data) _ _ Hp (length_closes data))
    as (now & -> & _).
  cbn. eauto.
Qed.

Lemma evaluate_valid (flag : PatternRecord) (k : nat) :
  NoDup (index data) ->
  nth_error (index data) k = Some (flag_end flag) ->
  (k + days_after < length data)%nat ->
  exists row, evaluate_ flag = Ok (Some row).
Proof.
  intros Hnd Hk Hlt. unfold evaluate_, evaluate.
  assert (E : mem (flag_end flag) (index data) = true)
    by (apply mem_true; now apply nth_error_In with k).
  rewrite E. cbn [negb].
  pose proof (positions_of_label _ _ _ Hnd Hk) as Hp.
  unfold get_loc. rewrite Hp. cbn.
  destruct (Z.leb_spec (len data) (Z.of_nat k + Z.of_nat days_after));
    [unfold len in *; lia|].
  destruct (iloc_in_bounds (closes data) (Z.of_nat k + Z.of_nat days_after))
    as (fut & -> & _).
  { unfold len in *. rewrite length_closes. unfold index. rewrite length_map. lia. }
  destruct (positions_single _ (closes data) _ _ Hp (length_closes data))
    as (now & -> & _).
  cbn. eauto.
Qed.

End EvaluatorFacts.

Lemma distinct_NoDup (idx : list Z) : distinct idx = true -> NoDup idx.
Proof.
  induction idx as [|x t IH]; cbn; intros H; constructor;
    apply andb_true_iff in H; destruct H as [Hx Ht].
  - intros Hin. apply mem_true in Hin. rewrite Hin in Hx. discriminate.
  - now apply IH.
Qed.

(** ** The evaluator's loop and its counters *)

Lemma flat_map_nothing {A B : Type} (f : A -> list B) (l : list A) :
  (forall x, In x l -> f x = []) -> flat_map f l = [].
Proof.
  induction l as [|x l IH]; intros H; [reflexivity|].
  cbn. rewrite (H x (or_introl eq_refl)). apply IH.
  intros y Hy. apply H. now right.
Qed.

Lemma how_many_cons (p : OutcomeRecord -> bool) (row : OutcomeRecord) (rows : list OutcomeRecord) :
  how_many p (row :: rows) = ((if p row then 1 else 0) + how_many p rows)%nat.
Proof. unfold how_many. cbn. destruct (p row); reflexivity. Qed.

Lemma tally_counts (rows : list OutcomeRecord) :
  forall t,
    let t' := fold_left count rows t in
    pattern_details t' = pattern_details t ++ rows /\
    valid_bullish t' = (how_many is_bullish rows + valid_bullish t)%nat /\
    bullish_success t'
      = (how_many (fun r => is_bullish r && success r) rows + bullish_success t)%nat /\
    valid_bearish t' = (how_many is_bearish rows + valid_bearish t)%nat /\
    bearish_success t'
      = (how_many (fun r => is_bearish r && success r) rows + bearish_success t)%nat.
Proof.
  induction rows as [|row rows IH]; intros t; cbn zeta.
  - cbn. now rewrite app_nil_r.
  - cbn [fold_left]. destruct (IH (count t row)) as (Hd & Hvb & Hsb & Hvr & Hsr).
    rewrite Hd, Hvb, Hsb, Hvr, Hsr, !how_many_cons.
    unfold count, is_bullish, is_bearish.
    destruct (flag_type row), (success row); cbn;
      rewrite <- app_assoc; repeat split; lia.
Qed.

Section EvaluatorLoop.

Variables np_round2 py_round2 : float -> float.
Variable data : frame.
Variable days_after : nat.
Variable threshold : float.

Lemma evaluate_all_rows (flags : list PatternRecord) :
  forall t t',
    evaluate_all np_round2 py_round2 data days_after threshold flags t = Ok t' ->
    t' = fold_left count (rows_of np_round2 py_round2 data days_after threshold flags) t.
Proof.
  induction flags as [|flag rest IH]; intros t t' H.
  - now injection H as <-.
  - cbn in H. inv_bind H. apply IH in H. unfold rows_of. cbn [flat_map].
    rewrite Hx, fold_left_app. destruct x as [row|]; exact H.
Qed.

Lemma evaluate_all_returns (flags : list PatternRecord) :
  (forall flag, In flag flags -> exists r, evaluate np_round2 py_round2 data days_after threshold flag = Ok r) ->
  forall t, exists t', evaluate_all np_round2 py_round2 data days_after threshold flags t = Ok t'.
Proof.
  induction flags as [|flag rest IH]; intros H t; [cbn; eauto|].
  cbn. destruct (H flag (or_introl eq_refl)) as [r ->]. cbn.
  apply IH. intros g Hg. apply H. now right.
Qed.

Lemma rows_of_origin (flags : list PatternRecord) (row : OutcomeRecord) :
  In row (rows_of np_round2 py_round2 data days_after threshold flags) ->
  exists flag, In flag flags /\ evaluate np_round2 py_round2 data days_after threshold flag = Ok (Some row).
Proof.
  unfold rows_of. rewrite in_flat_map. intros (flag & Hf & Hrow).
  exists flag. split; [exact Hf|].
  destruct (evaluate np_round2 py_round2 data days_after threshold flag) as [[r|]|e]; cbn in Hrow.
  - destruct Hrow as [-> | []]. reflexivity.
  - destruct Hrow.
  - destruct Hrow.
Qed.

Lemma rate_is_rate (s v : nat) : is_rate (rate s v) s v.
Proof.
  unfold is_rate, rate. split.
  - intros ->. reflexivity.
  - intros H. destruct (Nat.ltb_spec 0 v); [reflexivity | lia].
Qed.

Lemma calculate_ok (flags : list PatternRecord) (bp rp : float) (rows : list OutcomeRecord) :
  calculate_success_probability np_round2 py_round2 data days_after threshold flags = Ok (bp, rp, rows) ->
  rows = rows_of np_round2 py_round2 data days_after threshold flags /\
  bp = rate (how_many (fun r => is_bullish r && success r) rows) (how_many is_bullish rows) /\
  rp = rate (how_many (fun r => is_bearish r && success r) rows) (how_many is_bearish rows).
Proof.
  unfold calculate_success_probability. destruct flags as [|flag rest].
  - intros [= <- <- <-]. cbn. auto.
  - intros H. inv_bind H. inv_bind H. injection H as <- <- <-.
    apply evaluate_all_rows in Hx. subst x.
    destruct (tally_counts (rows_of np_round2 py_round2 data days_after threshold (flag :: rest)) tally0)
      as (Hd & Hvb & Hsb & Hvr & Hsr).
    cbn zeta in *. rewrite Hd, Hvb, Hsb, Hvr, Hsr. cbn [tally0 pattern_details
      valid_bullish valid_bearish bullish_success bearish_success app].
    rewrite !Nat.add_0_r. auto.
Qed.

(** When every pattern is skipped the table has no row and line 190
    raises. *)
Lemma calculate_all_skipped (flags : list PatternRecord) :
  flags <> [] ->
  (forall flag, In flag flags -> evaluate np_round2 py_round2 data days_after threshold flag = Ok None) ->
  calculate_success_probability np_round2 py_round2 data days_after threshold flags = Raise KeyError.
Proof.
  intros Hne Hall. unfold calculate_success_probability.
  destruct flags as [|flag rest]; [contradiction|].
  destruct (evaluate_all_returns (flag :: rest)) with (t := tally0) as [t' Ht'].
  { intros g Hg. rewrite (Hall g Hg). eauto. }
  rewrite Ht'. cbn [bind]. apply evaluate_all_rows in Ht'.
  assert (E : rows_of np_round2 py_round2 data days_after threshold (flag :: rest) = []).
  { unfold rows_of. apply flat_map_nothing.
    intros g Hg. now rewrite (Hall g Hg). }
  rewrite E in Ht'. cbn in Ht'. subst t'. reflexivity.
Qed.

End EvaluatorLoop.

(** ** Patterns without a forward observation *)

(** C5 at a series where it fails: the only pattern found in the 22 rows
    of [falling 2] ends at row 20, so that with a horizon of 7 rows the
    loop skips it; the table is then built from no row and the evaluator
    raises [KeyError] instead of returning. *)
Theorem all_patterns_skipped_raises (np_round2 py_round2 : float -> float) :
  detect_flag_patterns lsq_slope (falling 2) pole_threshold_default
                       flag_threshold_default 10 = Ok [falling_pattern] /\
  positions (index (falling 2)) (flag_end falling_pattern) = [20] /\
  len (falling 2) <= 20 + Z.of_nat 7 /\
  evaluate np_round2 py_round2 (falling 2) 7 threshold_default falling_pattern
  = Ok None /\
  calculate_success_probability np_round2 py_round2 (falling 2) 7 threshold_default
                                [falling_pattern]
  = Raise KeyError.
Proof.
  split; [exact falling_detected|]. vm_compute. repeat split. discriminate.
Qed.

(** ** The scanner on series that nothing checks *)

Lemma in_iloc_slice {A : Type} (l : list A) (i j : Z) (x : A) :
  In x (iloc_slice l i j) -> In x l.
Proof.
  unfold iloc_slice. intros H.
  rewrite <- (firstn_skipn (Z.to_nat i) l). apply in_or_app. right.
  rewrite <- (firstn_skipn (Z.to_nat (j - i)) (skipn (Z.to_nat i) l)).
  apply in_or_app. now left.
Qed.

Lemma nanmin_fold (l : list float) :
  forall acc,
    let r := fold_left (fun acc x =>
                          if is_nan x then acc
                          else if is_nan acc then x
                          else if ltb x acc then x else acc) l acc in
    r = acc \/ In r l.
Proof.
  induction l as [|x l IH]; intros acc; cbn zeta; [now left|].
  cbn [fold_left]. destruct (IH (if is_nan x then acc
                                 else if is_nan acc then x
                                 else if ltb x acc then x else acc)) as [E | Hin].
  - rewrite E. destruct (is_nan x); [now left|].
    destruct (is_nan acc); [right; now left|].
    destruct (ltb x acc); [right; now left | now left].
  - right. now right.
Qed.

Lemma nanmin_member (l : list float) : nanmin l = nan \/ In (nanmin l) l.
Proof. apply (nanmin_fold l nan). Qed.

Lemma compare_at_scalar (idx : list Z) (a b : list float) (d : Z) :
  NoDup idx -> length a = length idx -> length b = length idx ->
  exists v, compare_at idx a b d = Scalar v.
Proof.
  intros Hnd Ha Hb. unfold compare_at.
  destruct (loc idx (combine a b) d) as [|[lo hi] [|q rest]] eqn:E; eauto.
  exfalso.
  assert (Hin : In d idx).
  { destruct (loc_in idx (combine a b) d (lo, hi)) as (k & Hk & _);
      [rewrite E; now left | now apply nth_error_In with k]. }
  destruct (loc_unique idx (combine a b) d Hnd Hin) as [x Hx].
  - rewrite length_combine. lia.
  - congruence.
Qed.

Lemma strong_flag_scalar (data : frame) (d : Z) :
  NoDup (index data) -> exists v, is_strong_flag data d = Scalar v.
Proof.
  intros Hnd. unfold is_strong_flag. destruct (mem d (index data)); [|eauto].
  apply compare_at_scalar; [assumption | |].
  - now rewrite length_map, length_compute_rsi, length_closes.
  - now rewrite length_compute_rsi, length_closes.
Qed.

Lemma above_ma50_scalar (data : frame) (d : Z) :
  NoDup (index data) -> exists v, is_above_ma50 data d = Scalar v.
Proof.
  intros Hnd. unfold is_above_ma50. destruct (mem d (index data)); [|eauto].
  apply compare_at_scalar; [assumption | | apply length_closes].
  now rewrite length_rolling_mean, length_closes.
Qed.

Lemma no_zero_close (data : frame) (c : float) :
  no_zero_price data = true -> In c (closes data) -> eqb c zero = false.
Proof.
  unfold no_zero_price, closes. rewrite forallb_forall, in_map_iff.
  intros H (b & <- & Hb). specialize (H b Hb).
  apply andb_true_iff in H. destruct H as [H _]. now apply negb_true_iff in H.
Qed.

Lemma no_zero_low (data : frame) (i j : Z) :
  no_zero_price data = true ->
  eqb (nanmin (map Low (iloc_slice data i j))) zero = false.
Proof.
  intros H. destruct (nanmin_member (map Low (iloc_slice data i j))) as [-> | Hin];
    [reflexivity|].
  apply in_map_iff in Hin. destruct Hin as (b & <- & Hb). apply in_iloc_slice in Hb.
  unfold no_zero_price in H. rewrite forallb_forall in H. specialize (H b Hb).
  apply andb_true_iff in H. destruct H as [_ H]. now apply negb_true_iff in H.
Qed.

Section ScannerReturns.

Variable polyfit_slope : list float -> result float.
Variable data : frame.
Variables pole_threshold flag_threshold : float.
Variable consolidation_days : nat.

Hypothesis fit_returns : forall ys, ys <> [] -> exists s, polyfit_slope ys = Ok s.
Hypothesis dates_distinct : distinct (index data) = true.
Hypothesis prices_not_zero : no_zero_price data = true.

Lemma emit_returns (i fe : Z) (pc pr : float) (t : direction) :
  10 <= i < len data -> exists r, emit data i fe pc pr t = Ok r.
Proof.
  intros Hi. unfold emit.
  destruct (iloc_in_bounds (index data) i) as (d & -> & _);
    [unfold index; rewrite len_map; lia|].
  destruct (iloc_in_bounds (index data) (i - 10)) as (p & -> & _);
    [unfold index; rewrite len_map; lia|].
  cbn. eauto.
Qed.

Lemma examine_returns (i : Z) :
  10 <= i <= len data - Z.of_nat consolidation_days - 2 ->
  exists r, examine polyfit_slope data pole_threshold flag_threshold
                    consolidation_days i = Ok r.
Proof.
  intros Hi. unfold examine.
  destruct (iloc_in_bounds (closes data) i) as (cur & -> & _);
    [unfold closes; rewrite len_map; lia|].
  destruct (iloc_in_bounds (closes data) (i - 10)) as (past & -> & Hpast);
    [unfold closes; rewrite len_map; lia|].
  cbn [bind]. unfold py_div at 1.
  rewrite (no_zero_close data past prices_not_zero) by (eapply nth_error_In; eassumption).
  cbn [bind].
  destruct (ltb pole_threshold (abs (div (sub cur past) past))); [|eauto].
  unfold py_div. rewrite (no_zero_low data _ _ prices_not_zero). cbn [bind].
  destruct (ltb _ flag_threshold) eqn:Hrange; [|eauto].
  destruct (fit_returns (closes (iloc_slice data i (i + Z.of_nat consolidation_days))))
    as [slope ->].
  { intros E. unfold closes in E. apply map_eq_nil in E. rewrite E in Hrange.
    cbn in Hrange. discriminate. }
  cbn [bind].
  destruct (iloc_in_bounds (index data) (i + Z.of_nat consolidation_days))
    as (fe & Hfe & _); [unfold index; rewrite len_map; lia|].
  pose proof (distinct_NoDup _ dates_distinct) as Hnd.
  destruct (ltb zero (div (sub cur past) past)).
  - destruct (leb slope zero); [|eauto]. rewrite Hfe. cbn [bind].
    destruct (strong_flag_scalar data fe Hnd) as [strong ->]. cbn [truth bind].
    destruct (above_ma50_scalar data fe Hnd) as [above ->].
    destruct strong; cbn [truth bind]; [|eauto].
    destruct above; [|eauto]. apply emit_returns. lia.
  - destruct (ltb zero slope); [|eauto]. rewrite Hfe. cbn [bind].
    apply emit_returns. lia.
Qed.

Lemma scan_returns (indices : list Z) :
  (forall i, In i indices ->
             10 <= i <= len data - Z.of_nat consolidation_days - 2) ->
  forall acc, exists flags,
    scan polyfit_slope data pole_threshold flag_threshold consolidation_days
         indices acc = Ok flags.
Proof.
  induction indices as [|i rest IH]; intros H acc; [cbn; eauto|].
  cbn. destruct (examine_returns i (H i (or_introl eq_refl))) as [r ->]. cbn.
  apply IH. intros j Hj. apply H. now right.
Qed.

Lemma detect_returns :
  exists flags,
    detect_flag_patterns polyfit_slope data pole_threshold flag_threshold
                         consolidation_days = Ok flags.
Proof.
  unfold detect_flag_patterns. apply scan_returns.
  intros i Hi. now apply scan_indices_bounds.
Qed.

End ScannerReturns.

Lemma py_range_cons (lo hi : Z) :
  lo < hi -> py_range lo hi = lo :: py_range (lo + 1) hi.
Proof.
  intros H. unfold py_range.
  replace (Z.to_nat (hi - lo)) with (S (Z.to_nat (hi - (lo + 1)))) by lia.
  cbn [seq map]. f_equal; [lia|].
  rewrite <- seq_shift, map_map. apply map_ext. intros k. lia.
Qed.

(** A zero Close at the start of the first pole window stops the scan at
    its first division. *)
Lemma first_close_zero_raises
      (polyfit_slope : list float -> result float) (data : frame)
      (pole_threshold flag_threshold : float) (consolidation_days : nat) (c : float) :
  In 10 (scan_indices data consolidation_days) ->
  nth_error (closes data) 0 = Some c ->
  eqb c zero = true ->
  detect_flag_patterns polyfit_slope data pole_threshold flag_threshold
                       consolidation_days = Raise ZeroDivisionError.
Proof.
  intros Hin Hc Hz. apply scan_indices_bounds in Hin.
  unfold detect_flag_patterns, scan_indices.
  rewrite py_range_cons by lia. cbn [scan]. unfold examine.
  destruct (iloc_in_bounds (closes data) 10) as (cur & -> & _);
    [unfold closes; rewrite len_map; lia|].
  destruct (iloc_in_bounds (closes data) (10 - 10)) as (past & -> & Hpast);
    [unfold closes; rewrite len_map; lia|].
  change (Z.to_nat (10 - 10)) with 0%nat in Hpast.
  rewrite Hc in Hpast. injection Hpast as <-.
  cbn [bind]. unfold py_div. rewrite Hz. reflexivity.
Qed.

(** ** What the core does with a malformed series *)



(** * Further properties of the scanner *)

Section ScannerTrace.

Variable polyfit_slope : list float -> result float.
Variable data : frame.
Variables pole_threshold flag_threshold : float.
Variable consolidation_days : nat.

Let found_ := found_at polyfit_slope data pole_threshold flag_threshold consolidation_days.

(** A returned list is what the list held before, followed by what the
    loop body appended at each index, in the order of the indices. *)
Lemma scan_trace (indices : list Z) :
  forall acc flags,
    scan polyfit_slope data pole_threshold flag_threshold consolidation_days
         indices acc = Ok flags ->
    flags = acc ++ flat_map found_ indices.
Proof.
  induction indices as [|i rest IH]; intros acc flags H.
  - injection H as <-. cbn. now rewrite app_nil_r.
  - cbn in H. inv_bind H. apply IH in H. subst flags.
    cbn [flat_map]. unfold found_ at 2, found_at. rewrite Hx.
    destruct x as [f|]; [now rewrite <- app_assoc | reflexivity].
Qed.

Lemma found_here (i : Z) (f : PatternRecord) :
  In f (found_ i) ->
  examine polyfit_slope data pole_threshold flag_threshold consolidation_days i
  = Ok (Some f).
Proof.
  unfold found_, found_at.
  destruct (examine _ _ _ _ _ i) as [[g|]|e]; cbn; intros H; try destruct H.
  - now subst g.
  - destruct H.
Qed.

Lemma found_at_most_once (i : Z) : (length (found_ i) <= 1)%nat.
Proof.
  unfold found_, found_at. destruct (examine _ _ _ _ _ i) as [[g|]|e]; cbn; lia.
Qed.

Lemma found_count (indices : list Z) :
  (length (flat_map found_ indices) <= length indices)%nat.
Proof.
  induction indices as [|i rest IH]; cbn; [lia|].
  rewrite length_app. pose proof (found_at_most_once i). lia.
Qed.

Lemma found_dates_ascend (indices : list Z) :
  strictly_increasing (index data) = true ->
  StronglySorted Z.lt indices ->
  Forall (fun i => 0 <= i) indices ->
  StronglySorted Z.lt (map date (flat_map found_ indices)).
Proof.
  intros Hs Hsorted Hpos.
  induction indices as [|i rest IH]; [constructor|].
  apply StronglySorted_inv in Hsorted. destruct Hsorted as [Hrest Hlt].
  inversion Hpos as [|? ? Hi Hpos']; subst.
  specialize (IH Hrest Hpos'). cbn [flat_map]. rewrite map_app.
  destruct (found_ i) as [|f [|g more]] eqn:E.
  - exact IH.
  - cbn. constructor; [exact IH|].
    apply Forall_forall. intros d Hd. apply in_map_iff in Hd.
    destruct Hd as (f' & <- & Hf'). apply in_flat_map in Hf'.
    destruct Hf' as (j & Hj & Hf').
    assert (Hij : i < j) by (rewrite Forall_forall in Hlt; now apply Hlt).
    apply found_here, examine_some in Hf'.
    assert (Hf : In f (found_ i)) by (rewrite E; now left).
    apply found_here, examine_some in Hf.
    destruct Hf as [Hdi _ _ _ _ _], Hf' as [Hdj _ _ _ _ _].
    apply iloc_inv in Hdi; [|lia]. apply iloc_inv in Hdj; [|lia].
    apply (increasing_positions _ Hs (Z.to_nat i) (Z.to_nat j)); [lia | apply Hdi | apply Hdj].
  - pose proof (found_at_most_once i) as Hle. rewrite E in Hle. cbn in Hle. lia.
Qed.

End ScannerTrace.

Lemma py_range_sorted (lo hi : Z) : StronglySorted Z.lt (py_range lo hi).
Proof.
  unfold py_range. generalize (Z.to_nat (hi - lo)) as n. generalize 0%nat as a.
  intros a n. revert a. induction n as [|n IH]; intros a; cbn; constructor.
  - apply IH.
  - apply Forall_forall. intros x Hx. apply in_map_iff in Hx.
    destruct Hx as (k & <- & Hk). apply in_seq in Hk. lia.
Qed.

(** X1: on a series whose dates ascend, the records of the result are in
    ascending order of their [date], strictly: the scanner reports its
    patterns chronologically and never two of them for one anchor row. *)
Theorem records_are_chronological
        (polyfit_slope : list float -> result float) (data : frame)
        (pole_threshold flag_threshold : float) (consolidation_days : nat)
        (flags : list PatternRecord) :
  strictly_increasing (index data) = true ->
  detect_flag_patterns polyfit_slope data pole_threshold flag_threshold
                       consolidation_days = Ok flags ->
  StronglySorted Z.lt (map date flags) /\ NoDup (map date flags).
Proof.
  intros Hs H. unfold detect_flag_patterns in H. apply scan_trace in H.
  cbn [app] in H. subst flags.
  assert (Hsorted : StronglySorted Z.lt
                      (map date (flat_map (found_at polyfit_slope data pole_threshold
                                             flag_threshold consolidation_days)
                                          (scan_indices data consolidation_days)))).
  { apply found_dates_ascend; [exact Hs | apply py_range_sorted |].
    apply Forall_forall. intros i Hi. apply scan_indices_bounds in Hi. lia. }
  split; [exact Hsorted|].
  revert Hsorted. generalize (map date (flat_map (found_at polyfit_slope data
    pole_threshold flag_threshold consolidation_days)
    (scan_indices data consolidation_days))) as l.
  induction l as [|x l IH]; intros Hl; constructor.
  - apply StronglySorted_inv in Hl. destruct Hl as [_ Hlt].
    intros Hin. rewrite Forall_forall in Hlt. specialize (Hlt x Hin). lia.
  - apply IH. now apply StronglySorted_inv in Hl.
Qed.

Lemma records_are_chronological_witness :
  strictly_increasing (index rising) = true /\
  detect_flag_patterns lsq_slope rising pole_threshold_default
                       flag_threshold_default 10
  = Ok [rising_pattern; rising_pattern_next] /\
  StronglySorted Z.lt (map date [rising_pattern; rising_pattern_next]) /\
  NoDup (map date [rising_pattern; rising_pattern_next]).
Proof.
  assert (Hs : strictly_increasing (index rising) = true) by (vm_compute; reflexivity).
  assert (H : detect_flag_patterns lsq_slope rising pole_threshold_default
                flag_threshold_default 10 = Ok [rising_pattern; rising_pattern_next])
    by (vm_compute; reflexivity).
  split; [exact Hs|]. split; [exact H|].
  exact (records_are_chronological lsq_slope rising pole_threshold_default
           flag_threshold_default 10 _ Hs H).
Defined.

(** X2: a series of at most [consolidation_days + 11] rows, the empty
    frame included, gives no pattern and no error, whatever its prices;
    and a longer one gives at most one record for each of its
    [len - consolidation_days - 11] scan indices. *)
Theorem record_count_is_bounded
        (polyfit_slope : list float -> result float) (data : frame)
        (pole_threshold flag_threshold : float) (consolidation_days : nat) :
  (len data <= Z.of_nat consolidation_days + 11 ->
   detect_flag_patterns polyfit_slope data pole_threshold flag_threshold
                        consolidation_days = Ok []) /\
  (forall flags,
      detect_flag_patterns polyfit_slope data pole_threshold flag_threshold
                           consolidation_days = Ok flags ->
      (length flags <= length data - consolidation_days - 11)%nat).
Proof.
  split.
  - intros H. unfold detect_flag_patterns, scan_indices, py_range.
    replace (Z.to_nat (len data - Z.of_nat consolidation_days - 1 - 10)) with 0%nat by lia.
    reflexivity.
  - intros flags H. unfold detect_flag_patterns in H. apply scan_trace in H.
    cbn [app] in H. subst flags.
    etransitivity; [apply found_count|].
    unfold scan_indices. rewrite length_py_range. unfold len. lia.
Qed.

Lemma record_count_is_bounded_witness :
  (len (falling 1) <= Z.of_nat 10 + 11 /\
   detect_flag_patterns lsq_slope (falling 1) pole_threshold_default
                        flag_threshold_default 10 = Ok []) /\
  (detect_flag_patterns lsq_slope rising pole_threshold_default
                        flag_threshold_default 10
   = Ok [rising_pattern; rising_pattern_next] /\
   (length [rising_pattern; rising_pattern_next] <= length rising - 10 - 11)%nat).
Proof.
  assert (Hshort : len (falling 1) <= Z.of_nat 10 + 11) by (vm_compute; discriminate).
  assert (H : detect_flag_patterns lsq_slope rising pole_threshold_default
                flag_threshold_default 10 = Ok [rising_pattern; rising_pattern_next])
    by (vm_compute; reflexivity).
  split.
  - split; [exact Hshort|].
    exact (proj1 (record_count_is_bounded lsq_slope (falling 1) pole_threshold_default
                    flag_threshold_default 10) Hshort).
  - split; [exact H|].
    exact (proj2 (record_count_is_bounded lsq_slope rising pole_threshold_default
                    flag_threshold_default 10) _ H).
Defined.

(** ** What a record measures *)

Lemma emit_fields (data : frame) (i fe : Z) (pc pr : float) (t : direction)
      (f : PatternRecord) :
  emit data i fe pc pr t = Ok (Some f) ->
  pole_price_change f = pc /\ consolidation_range f = pr /\ trend_direction f = t.
Proof.
  unfold emit. intros H. inv_bind H. inv_bind H. injection H as <-. cbn. auto.
Qed.

Lemma examine_measured
      (polyfit_slope : list float -> result float) (data : frame)
      (pt ft : float) (cd : nat) (i : Z) (f : PatternRecord) :
  10 <= i ->
  examine polyfit_slope data pt ft cd i = Ok (Some f) ->
  measured polyfit_slope data pt ft cd i f.
Proof.
  intros Hi H. unfold examine in H.
  apply bind_ok in H. destruct H as (cur & Hcur & H).
  apply bind_ok in H. destruct H as (past & Hpast & H).
  apply bind_ok in H. destruct H as (pc & Hpc & H).
  apply iloc_inv in Hcur; [|lia]. apply iloc_inv in Hpast; [|lia].
  destruct Hcur as [_ Hcur], Hpast as [_ Hpast].
  replace (Z.to_nat (i - 10)) with (Z.to_nat i - 10)%nat in Hpast by lia.
  apply py_div_ok in Hpc. destruct Hpc as [Hpc Hnz].
  destruct (ltb pt (abs pc)) eqn:Hpole; [|discriminate].
  apply bind_ok in H. destruct H as (pr & Hpr & H).
  apply py_div_ok in Hpr. destruct Hpr as [Hpr Hlow].
  destruct (ltb pr ft) eqn:Hrange; [|discriminate].
  apply bind_ok in H. destruct H as (slope & Hfit & H).
  destruct (ltb zero pc) eqn:Hsign.
  - destruct (leb slope zero) eqn:Hslope; [|discriminate].
    apply bind_ok in H. destruct H as (fe & Hfe & H).
    apply bind_ok in H. destruct H as (strong & Hstrong & H).
    apply bind_ok in H. destruct H as (confirmed & Hconfirmed & H).
    destruct confirmed; [|discriminate].
    apply emit_fields in H. destruct H as (Ec & Er & Et).
    constructor; rewrite ?Ec, ?Er, ?Et, ?Hsign; cbn zeta; auto.
    + exists cur, past. subst pc. auto.
    + exists slope. split; [assumption|]. exact Hslope.
  - destruct (ltb zero slope) eqn:Hslope; [|discriminate].
    apply bind_ok in H. destruct H as (fe & Hfe & H).
    apply emit_fields in H. destruct H as (Ec & Er & Et).
    constructor; rewrite ?Ec, ?Er, ?Et, ?Hsign; cbn zeta; auto.
    + exists cur, past. subst pc. auto.
    + exists slope. split; [assumption|]. exact Hslope.
Qed.

(** X3: every record of the result carries the measurements that let it
    through.  Its [pole_price_change] is the relative change of the Close
    over the ten rows before its anchor and exceeds the pole threshold in
    size; its direction is Bullish exactly when that change is positive;
    its [consolidation_range] is (highest High - lowest Low) / lowest Low
    over the [consolidation_days] rows from the anchor on and is below
    the flag threshold; and the slope fitted to the closes of those rows
    is at most 0 for a Bullish record and above 0 for a Bearish one. *)
Theorem records_carry_their_measurements
        (polyfit_slope : list float -> result float) (data : frame)
        (pole_threshold flag_threshold : float) (consolidation_days : nat)
        (flags : list PatternRecord) (f : PatternRecord) :
  detect_flag_patterns polyfit_slope data pole_threshold flag_threshold
                       consolidation_days = Ok flags ->
  In f flags ->
  exists i,
    10 <= i <= len data - Z.of_nat consolidation_days - 2 /\
    iloc (index data) i = Ok (date f) /\
    measured polyfit_slope data pole_threshold flag_threshold consolidation_days i f.
Proof.
  intros H Hf.
  destruct (detect_records _ _ _ _ _ _ _ H Hf) as (i & Hi & Hex & Ha).
  exists i. split; [exact Hi|]. split; [apply Ha|].
  apply examine_measured; [lia | exact Hex].
Qed.

Lemma records_carry_their_measurements_witness :
  detect_flag_patterns lsq_slope (falling 2) pole_threshold_default
                       flag_threshold_default 10 = Ok [falling_pattern] /\
  In falling_pattern [falling_pattern] /\
  exists i,
    10 <= i <= len (falling 2) - Z.of_nat 10 - 2 /\
    iloc (index (falling 2)) i = Ok (date falling_pattern) /\
    measured lsq_slope (falling 2) pole_threshold_default flag_threshold_default
             10 i falling_pattern.
Proof.
  assert (H : detect_flag_patterns lsq_slope (falling 2) pole_threshold_default
                flag_threshold_default 10 = Ok [falling_pattern])
    by (vm_compute; reflexivity).
  assert (Hin : In falling_pattern [falling_pattern]) by (simpl; auto).
  split; [exact H|]. split; [exact Hin|].
  exact (records_carry_their_measurements lsq_slope (falling 2) pole_threshold_default
           flag_threshold_default 10 [falling_pattern] falling_pattern H Hin).
Defined.

(** X4: with [consolidation_days = 0] the scanner never finds a pattern:
    the window is empty, its range is NaN and no NaN is below the flag
    threshold. *)
Theorem no_window_no_pattern
        (polyfit_slope : list float -> result float) (data : frame)
        (pole_threshold flag_threshold : float) (flags : list PatternRecord) :
  detect_flag_patterns polyfit_slope data pole_threshold flag_threshold 0 = Ok flags ->
  flags = [].
Proof.
  intros H. destruct flags as [|f rest]; [reflexivity|]. exfalso.
  destruct (detect_records _ _ _ _ _ _ f H (or_introl eq_refl)) as (i & _ & _ & Ha).
  now apply (anchored_window _ _ _ _ _ Ha).
Qed.

Lemma no_window_no_pattern_witness :
  detect_flag_patterns lsq_slope (falling 2) pole_threshold_default
                       flag_threshold_default 0 = Ok [] /\
  @nil PatternRecord = [].
Proof.
  assert (H : detect_flag_patterns lsq_slope (falling 2) pole_threshold_default
                flag_threshold_default 0 = Ok []) by (vm_compute; reflexivity).
  split; [exact H|].
  exact (no_window_no_pattern lsq_slope (falling 2) pole_threshold_default
           flag_threshold_default [] H).
Defined.

(** * Further properties of the confirmation filters *)

Lemma rsi_warm_up (s : list float) (p k : nat) (x : float) :
  nth_error (compute_rsi s p) k = Some x -> (k + 1 < p)%nat -> x = zero.
Proof.
  intros Hx Hk.
  assert (Hlt : (k < length s)%nat).
  { rewrite <- (length_compute_rsi s p). apply nth_error_Some. congruence. }
  destruct (nth_error (gain s p) k) as [g|] eqn:Hg.
  2: { apply nth_error_None in Hg. rewrite length_gain in Hg. lia. }
  destruct (nth_error (loss s p) k) as [l|] eqn:Hl.
  2: { apply nth_error_None in Hl. rewrite length_loss in Hl. lia. }
  rewrite (nth_error_compute_rsi s p k g l Hg Hl) in Hx. injection Hx as <-.
  apply rolling_mean_warm_up in Hg; [|assumption]. now subst g.
Qed.

Lemma no_momentum_before_row_13 (data : frame) (d : Z) (r : float) :
  value_at (index data) (compute_rsi (closes data) 14) d = Some r ->
  In d (index (firstn 13 data)) ->
  r = zero.
Proof.
  intros Hr Hd. apply in_first_rows in Hd. destruct Hd as (p & Hp & Hidx).
  apply value_at_in in Hr. destruct Hr as [Hloc _].
  destruct (nth_error (compute_rsi (closes data) 14) p) as [x|] eqn:Hx.
  - assert (x = zero) by (apply (rsi_warm_up _ _ _ _ Hx); lia). subst x.
    pose proof (in_loc _ _ _ _ _ Hidx Hx) as Hin. rewrite Hloc in Hin.
    destruct Hin as [-> | []]. reflexivity.
  - apply nth_error_None in Hx. rewrite length_compute_rsi, length_closes in Hx.
    assert (p < length (index data))%nat by (apply nth_error_Some; congruence). lia.
Qed.

(** X5: the two filters fail closed.  For a date that is not in the
    index both return [False].  [is_strong_flag] is never true at the date
    of one of the first 13 rows, where the momentum is the fill value 0,
    and [is_above_ma50] is never true at the date of one of the first 49
    rows, where the moving average is NaN. *)
Theorem filters_fail_closed (data : frame) (d : Z) :
  (~ In d (index data) ->
   is_strong_flag data d = Scalar false /\ is_above_ma50 data d = Scalar false) /\
  (In d (index (firstn 13 data)) -> truth (is_strong_flag data d) <> Ok true) /\
  (In d (index (firstn 49 data)) -> truth (is_above_ma50 data d) <> Ok true).
Proof.
  split; [|split].
  - intros H. unfold is_strong_flag, is_above_ma50.
    destruct (mem d (index data)) eqn:E; [|auto].
    apply mem_true in E. contradiction.
  - intros Hd H. apply truth_true, strong_flag_true in H.
    destruct H as (r & Hr & Hlt).
    rewrite (no_momentum_before_row_13 _ _ _ Hr Hd) in Hlt. discriminate.
  - intros Hd H. apply truth_true, above_ma50_true in H.
    destruct H as (m & c & Hm & _ & Hlt).
    rewrite (no_average_before_row_49 _ _ _ Hm Hd) in Hlt.
    rewrite ltb_nan_l in Hlt. discriminate.
Qed.

Lemma filters_fail_closed_witness :
  (~ In 100 (index rising) /\
   is_strong_flag rising 100 = Scalar false /\ is_above_ma50 rising 100 = Scalar false) /\
  (In 12 (index (firstn 13 rising)) /\ truth (is_strong_flag rising 12) <> Ok true) /\
  (In 48 (index (firstn 49 rising)) /\ truth (is_above_ma50 rising 48) <> Ok true).
Proof.
  assert (Habsent : ~ In 100 (index rising)).
  { intros H. apply mem_true in H. vm_compute in H. discriminate. }
  assert (H13 : In 12 (index (firstn 13 rising))) by (apply mem_true; vm_compute; reflexivity).
  assert (H49 : In 48 (index (firstn 49 rising))) by (apply mem_true; vm_compute; reflexivity).
  split; [|split].
  - split; [exact Habsent|]. exact (proj1 (filters_fail_closed rising 100) Habsent).
  - split; [exact H13|]. exact (proj1 (proj2 (filters_fail_closed rising 12)) H13).
  - split; [exact H49|]. exact (proj2 (proj2 (filters_fail_closed rising 48)) H49).
Defined.

(** ** Dates that label several rows *)

Lemma nth_error_py_range_at (n k : nat) :
  (k < n)%nat -> nth_error (py_range 0 (Z.of_nat n)) k = Some (Z.of_nat k).
Proof.
  intros H. unfold py_range. rewrite nth_error_map.
  replace (Z.to_nat (Z.of_nat n - 0)) with n by lia.
  rewrite (nth_error_nth' (seq 0 n) 0%nat) by (rewrite length_seq; lia).
  rewrite seq_nth by lia. reflexivity.
Qed.

Lemma two_members {A : Type} (l : list A) (x y : A) :
  In x l -> In y l -> x <> y -> exists a b rest, l = a :: b :: rest.
Proof.
  destruct l as [|a [|b rest]]; cbn; intros Hx Hy Hne.
  - destruct Hx.
  - destruct Hx as [<- | []], Hy as [<- | []]. contradiction.
  - eauto.
Qed.

Lemma positions_repeated (idx : list Z) (d : Z) :
  repeated idx d -> exists p q rest, positions idx d = p :: q :: rest.
Proof.
  intros (a & b & Hne & Ha & Hb). unfold positions, len.
  assert (a < length idx)%nat by (apply nth_error_Some; congruence).
  assert (b < length idx)%nat by (apply nth_error_Some; congruence).
  apply two_members with (Z.of_nat a) (Z.of_nat b).
  - apply in_loc with a; [exact Ha | now apply nth_error_py_range_at].
  - apply in_loc with b; [exact Hb | now apply nth_error_py_range_at].
  - lia.
Qed.

Lemma loc_repeated {A : Type} (idx : list Z) (col : list A) (d : Z) :
  repeated idx d -> length col = length idx ->
  exists x y rest, loc idx col d = x :: y :: rest.
Proof.
  intros Hr Hlen. apply positions_repeated in Hr. destruct Hr as (p & q & rest & Hp).
  unfold positions in Hp.
  assert (Hrange : length (py_range 0 (len idx)) = length idx)
    by (rewrite length_py_range; unfold len; lia).
  rewrite (loc_fst idx _ col d Hrange Hlen) in Hp.
  rewrite (loc_snd idx (py_range 0 (len idx)) col d Hrange Hlen).
  destruct (loc idx (combine (py_range 0 (len idx)) col) d) as [|u [|v more]];
    try discriminate.
  cbn. eauto.
Qed.

Lemma compare_at_repeated (idx : list Z) (a b : list float) (d : Z) :
  repeated idx d -> length a = length idx -> length b = length idx ->
  truth (compare_at idx a b d) = Raise ValueError.
Proof.
  intros Hr Ha Hb. unfold compare_at.
  destruct (loc_repeated idx (combine a b) d Hr) as ([lo hi] & y & rest & ->).
  - rewrite length_combine. lia.
  - reflexivity.
Qed.

Lemma repeated_is_member (idx : list Z) (d : Z) : repeated idx d -> mem d idx = true.
Proof.
  intros (a & _ & _ & Ha & _). apply mem_true. now apply nth_error_In with a.
Qed.

(** X6: at a date that labels two or more rows, the comparison inside
    either filter is made on a whole row and gives a Series; asking for
    its truth value, as the [and] of line 99 does, raises
    [ValueError]. *)
Theorem repeated_date_has_no_truth (data : frame) (d : Z) :
  repeated (index data) d ->
  truth (is_strong_flag data d) = Raise ValueError /\
  truth (is_above_ma50 data d) = Raise ValueError.
Proof.
  intros Hr. unfold is_strong_flag, is_above_ma50.
  rewrite (repeated_is_member _ _ Hr). split.
  - apply compare_at_repeated; [exact Hr | |].
    + now rewrite length_map, length_compute_rsi, length_closes.
    + now rewrite length_compute_rsi, length_closes.
  - apply compare_at_repeated; [exact Hr | | apply length_closes].
    now rewrite length_rolling_mean, length_closes.
Qed.

Lemma repeated_date_has_no_truth_witness :
  repeated (index (undated 2)) 0 /\
  truth (is_strong_flag (undated 2) 0) = Raise ValueError /\
  truth (is_above_ma50 (undated 2) 0) = Raise ValueError.
Proof.
  assert (Hr : repeated (index (undated 2)) 0).
  { exists 0%nat, 1%nat. split; [lia|]. split; reflexivity. }
  split; [exact Hr|]. exact (repeated_date_has_no_truth (undated 2) 0 Hr).
Defined.

(** * Further properties of the evaluator *)

Section EvaluatorErrors.

Variables np_round2 py_round2 : float -> float.
Variable data : frame.
Variable days_after : nat.
Variable threshold : float.

Lemma evaluate_repeated (flag : PatternRecord) :
  repeated (index data) (flag_end flag) ->
  evaluate np_round2 py_round2 data days_after threshold flag = Raise (ambiguous_position (index data)).
Proof.
  intros Hr. unfold evaluate. rewrite (repeated_is_member _ _ Hr). cbn [negb].
  unfold get_loc. destruct (positions_repeated _ _ Hr) as (p & q & rest & ->).
  reflexivity.
Qed.

(** The only exception of the loop body is that of an ambiguous date. *)
Lemma evaluate_raise_kind (flag : PatternRecord) (e : exn) :
  evaluate np_round2 py_round2 data days_after threshold flag = Raise e ->
  e = ambiguous_position (index data).
Proof.
  unfold evaluate. destruct (mem (flag_end flag) (index data)) eqn:Hm; cbn [negb];
    [|discriminate].
  unfold get_loc.
  destruct (positions (index data) (flag_end flag)) as [|k [|q rest]] eqn:Hp.
  - exfalso. apply mem_true, In_nth_error in Hm. destruct Hm as [a Ha].
    assert (a < length (index data))%nat by (apply nth_error_Some; congruence).
    pose proof (in_loc _ _ _ _ _ Ha (nth_error_py_range_at _ a H)) as Hin.
    unfold positions, len in Hp. rewrite Hp in Hin. destruct Hin.
  - cbn [bind].
    destruct (positions_single _ (closes data) _ _ Hp (length_closes data))
      as (now & -> & Hk & _).
    destruct (Z.leb_spec (len data) (k + Z.of_nat days_after)); [discriminate|].
    destruct (iloc_in_bounds (closes data) (k + Z.of_nat days_after)) as (fut & -> & _).
    { unfold len in *. rewrite length_closes. unfold index in *.
      rewrite length_map in *. lia. }
    cbn. discriminate.
  - cbn. unfold ambiguous_position. now intros [= <-].
Qed.


Lemma evaluate_all_raises (flags : list PatternRecord) (flag : PatternRecord) :
  In flag flags ->
  repeated (index data) (flag_end flag) ->
  forall t, evaluate_all np_round2 py_round2 data days_after threshold flags t
            = Raise (ambiguous_position (index data)).
Proof.
  induction flags as [|g rest IH]; intros Hin Hr t; [destruct Hin|].
  cbn. destruct (evaluate np_round2 py_round2 data days_after threshold g) as [r|e] eqn:E; cbn.
  - destruct Hin as [-> | Hin].
    + rewrite (evaluate_repeated _ Hr) in E. discriminate.
    + now apply IH.
  - apply evaluate_raise_kind in E. now subst e.
Qed.

End EvaluatorErrors.

(** X7: when the [flag_end] date of one of the patterns labels two or
    more rows of the series, the evaluator returns nothing: it raises
    [TypeError] if the index is sorted ([get_loc] gives a slice, and
    [slice + int] fails) and [ValueError] otherwise ([get_loc] gives a
    mask, whose comparison has no truth value). *)
Theorem repeated_flag_end_raises
        (np_round2 py_round2 : float -> float)
        (data : frame) (days_after : nat) (threshold : float)
        (flags : list PatternRecord) (flag : PatternRecord) :
  In flag flags ->
  repeated (index data) (flag_end flag) ->
  calculate_success_probability np_round2 py_round2 data days_after threshold flags
  = Raise (if monotonic_increasing (index data) then TypeError else ValueError).
Proof.
  intros Hin Hr. unfold calculate_success_probability.
  destruct flags as [|g rest] eqn:E; [destruct Hin|]. rewrite <- E in *.
  now rewrite (evaluate_all_raises np_round2 py_round2 data days_after threshold flags flag
                 Hin Hr tally0).
Qed.

Lemma repeated_flag_end_raises_witness :
  In undated_pattern [undated_pattern] /\
  repeated (index (undated 2)) (flag_end undated_pattern) /\
  calculate_success_probability round2 round2 (undated 2) 1 threshold_default [undated_pattern]
  = Raise (if monotonic_increasing (index (undated 2)) then TypeError else ValueError).
Proof.
  assert (Hin : In undated_pattern [undated_pattern]) by (simpl; auto).
  assert (Hr : repeated (index (undated 2)) (flag_end undated_pattern)).
  { exists 0%nat, 1%nat. split; [lia|]. split; reflexivity. }
  split; [exact Hin|]. split; [exact Hr|].
  exact (repeated_flag_end_raises round2 round2 (undated 2) 1 threshold_default
           [undated_pattern] undated_pattern Hin Hr).
Defined.

(** ** The cases of the evaluator on distinct dates *)

Lemma calculate_by_rows (np_round2 py_round2 : float -> float) (data : frame) (days_after : nat) (threshold : float)
      (flags : list PatternRecord) :
  distinct (index data) = true ->
  flags <> [] ->
  calculate_success_probability np_round2 py_round2 data days_after threshold flags
  = match rows_of np_round2 py_round2 data days_after threshold flags with
    | [] => Raise KeyError
    | rows =>
        Ok (rate (how_many (fun r => is_bullish r && success r) rows)
                 (how_many is_bullish rows),
            rate (how_many (fun r => is_bearish r && success r) rows)
                 (how_many is_bearish rows),
            rows)
    end.
Proof.
  intros Hd Hne. apply distinct_NoDup in Hd. unfold calculate_success_probability.
  destruct flags as [|g rest] eqn:E; [contradiction|]. rewrite <- E in *.
  destruct (evaluate_all_returns np_round2 py_round2 data days_after threshold flags)
    with (t := tally0)
    as [t' Ht'].
  { intros f _. now apply evaluate_returns. }
  rewrite Ht'. cbn [bind]. apply evaluate_all_rows in Ht'.
  destruct (tally_counts (rows_of np_round2 py_round2 data days_after threshold flags) tally0)
    as (Hrows & Hvb & Hsb & Hvr & Hsr).
  cbn zeta in *. rewrite <- Ht' in *. cbn [tally0 pattern_details valid_bullish
    valid_bearish bullish_success bearish_success app] in *.
  rewrite Hrows, Hvb, Hsb, Hvr, Hsr, !Nat.add_0_r.
  destruct (rows_of np_round2 py_round2 data days_after threshold flags); reflexivity.
Qed.



(** ** The table and its patterns *)

Lemma evaluate_row_of (np_round2 py_round2 : float -> float) (data : frame)
      (days_after : nat) (threshold : float)
      (flag : PatternRecord) (row : OutcomeRecord) :
  evaluate np_round2 py_round2 data days_after threshold flag = Ok (Some row) ->
  row_of flag row /\ days_after_ row = days_after /\
  threshold_pct row = py_round2 (mul threshold hundred).
Proof.
  intros H. apply evaluate_some in H.
  destruct H as (k & now & future & _ & _ & _ & _ & _ & ->).
  unfold row_of. cbn. auto.
Qed.

Lemma rows_of_count (np_round2 py_round2 : float -> float) (data : frame)
      (days_after : nat) (threshold : float) (flags : list PatternRecord) :
  (length (rows_of np_round2 py_round2 data days_after threshold flags) <= length flags)%nat.
Proof.
  unfold rows_of. induction flags as [|f rest IH]; cbn; [lia|].
  rewrite length_app.
  destruct (evaluate np_round2 py_round2 data days_after threshold f) as [[r|]|e]; cbn; lia.
Qed.

Lemma directions_partition (rows : list OutcomeRecord) :
  (how_many is_bullish rows + how_many is_bearish rows = length rows)%nat /\
  (how_many (fun r => is_bullish r && success r) rows <= how_many is_bullish rows)%nat /\
  (how_many (fun r => is_bearish r && success r) rows <= how_many is_bearish rows)%nat.
Proof.
  induction rows as [|row rows IH]; [cbn; lia|].
  rewrite !how_many_cons. cbn [length].
  unfold is_bullish, is_bearish in *.
  destruct (flag_type row), (success row); cbn; lia.
Qed.

(** ** Detection followed by evaluation *)

Lemma rows_of_all_kept (np_round2 py_round2 : float -> float) (data : frame) (days_after : nat) (threshold : float)
      (flags : list PatternRecord) :
  (forall f, In f flags ->
             exists row, evaluate np_round2 py_round2 data days_after threshold f = Ok (Some row)) ->
  Forall2 row_of flags (rows_of np_round2 py_round2 data days_after threshold flags).
Proof.
  unfold rows_of. induction flags as [|f rest IH]; intros H; cbn; [constructor|].
  destruct (H f (or_introl eq_refl)) as [row Hrow]. rewrite Hrow. cbn.
  constructor.
  - now apply evaluate_row_of in Hrow.
  - apply IH. intros g Hg. apply H. now right.
Qed.

Lemma detected_patterns_have_a_next_row
      (np_round2 py_round2 : float -> float)
      (polyfit_slope : list float -> result float) (data : frame)
      (pt ft : float) (cd : nat) (threshold : float)
      (flags : list PatternRecord) (f : PatternRecord) :
  distinct (index data) = true ->
  detect_flag_patterns polyfit_slope data pt ft cd = Ok flags ->
  In f flags ->
  exists row, evaluate np_round2 py_round2 data 1 threshold f = Ok (Some row).
Proof.
  intros Hd H Hf. apply distinct_NoDup in Hd.
  destruct (detect_records _ _ _ _ _ _ _ H Hf) as (i & Hi & _ & Ha).
  destruct Ha as [_ _ Hfe _ _ _]. apply iloc_inv in Hfe; [|lia].
  destruct Hfe as [Hlen Hfe]. unfold len, index in Hlen. rewrite length_map in Hlen.
  apply (evaluate_valid np_round2 py_round2 data 1 threshold f _ Hd Hfe). unfold len in Hi. lia.
Qed.

(** X10: the pipeline of [main] at the horizon of one day, the first
    choice of the sidebar.  On a series with distinct dates, whenever the
    scanner returns, the evaluator returns too, and its table has exactly
    one row for each pattern found, in the same order: the scan stops
    early enough for every pattern to have a next row, so none is
    skipped and line 190 cannot fail. *)
Theorem one_day_horizon_keeps_every_pattern
        (np_round2 py_round2 : float -> float)
        (polyfit_slope : list float -> result float) (data : frame)
        (flags : list PatternRecord) :
  distinct (index data) = true ->
  detect_flag_patterns polyfit_slope data (ratio 15 1000) (ratio 25 1000) 10 = Ok flags ->
  exists bp rp rows,
    main_core np_round2 py_round2 polyfit_slope data 1 = Ok (bp, rp, rows) /\
    Forall2 row_of flags rows.
Proof.
  intros Hd H. unfold main_core. rewrite H. cbn [bind].
  assert (Hkept : forall f, In f flags ->
                   exists row, evaluate np_round2 py_round2 data 1 (ratio 1 10000) f = Ok (Some row)).
  { intros f Hf. now apply (detected_patterns_have_a_next_row _ _ _ _ _ _ _ _ _ _ Hd H Hf). }
  pose proof (rows_of_all_kept np_round2 py_round2 data 1 (ratio 1 10000) flags Hkept) as Hall.
  destruct flags as [|f rest] eqn:E.
  - exists zero, zero, []. split; [reflexivity | constructor].
  - rewrite <- E in *.
    assert (Hne : flags <> []) by (rewrite E; discriminate).
    rewrite (calculate_by_rows _ _ _ _ _ _ Hd Hne).
    destruct (rows_of np_round2 py_round2 data 1 (ratio 1 10000) flags) as [|row rows] eqn:Er.
    + rewrite E in Hall. inversion Hall.
    + eauto.
Qed.

Lemma one_day_horizon_keeps_every_pattern_witness :
  distinct (index rising) = true /\
  detect_flag_patterns lsq_slope rising (ratio 15 1000) (ratio 25 1000) 10
  = Ok [rising_pattern; rising_pattern_next] /\
  exists bp rp rows,
    main_core round2 round2 lsq_slope rising 1 = Ok (bp, rp, rows) /\
    Forall2 row_of [rising_pattern; rising_pattern_next] rows.
Proof.
  assert (Hd : distinct (index rising) = true) by (vm_compute; reflexivity).
  assert (H : detect_flag_patterns lsq_slope rising (ratio 15 1000) (ratio 25 1000) 10
              = Ok [rising_pattern; rising_pattern_next]) by (vm_compute; reflexivity).
  split; [exact Hd|]. split; [exact H|].
  exact (one_day_horizon_keeps_every_pattern round2 round2 lsq_slope rising
           [rising_pattern; rising_pattern_next] Hd H).
Defined.

(** * The momentum of a close that does not move *)

Lemma sub_self (c : float) : sub c c = zero \/ sub c c = nan.
Proof.
  destruct c as [[|]|[|]| |s m e]; cbn; auto.
  left. unfold sub, SFsub. rewrite Z.sub_diag. reflexivity.
Qed.

Lemma diff_from_flat (c : float) (s : list float) :
  Forall (eq c) s -> Forall (fun d => d = zero \/ d = nan) (diff_from c s).
Proof.
  induction s as [|x s IH]; intros H; cbn; constructor;
    inversion H as [|? ? Hx Hs]; subst.
  - apply sub_self.
  - now apply IH.
Qed.

Lemma diff_flat (c : float) (s : list float) :
  Forall (eq c) s -> Forall (fun d => d = zero \/ d = nan) (diff s).
Proof.
  destruct s as [|x s]; intros H; cbn; constructor; [now right|].
  inversion H as [|? ? Hx Hs]; subst. now apply diff_from_flat.
Qed.

Lemma gains_flat (delta : list float) :
  Forall (fun d => d = zero \/ d = nan) delta -> Forall (eq zero) (gains delta).
Proof.
  unfold gains. induction 1 as [|d delta [-> | ->] _ IH]; cbn; constructor; auto.
Qed.

Lemma losses_flat (delta : list float) :
  Forall (fun d => d = zero \/ d = nan) delta -> Forall (eq neg_zero) (losses delta).
Proof.
  unfold losses. induction 1 as [|d delta [-> | ->] _ IH]; cbn; constructor; auto.
Qed.

Lemma add_mean_still (r : roller) (v : float) :
  still r -> zeroish v -> still (add_mean r v).
Proof.
  intros [Hs Ha Hr Hp] Hv. unfold add_mean.
  destruct Hv as [-> | ->]; cbn [is_nan zero neg_zero];
    destruct Hs as [Es | Es], Ha as [Ea | Ea]; rewrite Es, Ea;
    constructor; cbn; unfold zeroish; auto.
Qed.

Lemma remove_mean_still (r : roller) (v : float) :
  still r -> zeroish v -> still (remove_mean r v).
Proof.
  intros [Hs Ha Hr Hp] Hv. unfold remove_mean.
  destruct Hv as [-> | ->]; cbn [is_nan zero neg_zero];
    destruct Hs as [Es | Es], Hr as [Er | Er]; rewrite Es, Er;
    constructor; cbn; unfold zeroish; auto.
Qed.

Lemma fold_add_still (l : list float) :
  Forall zeroish l -> forall r, still r -> still (fold_left add_mean l r).
Proof.
  induction 1 as [|v l Hv _ IH]; intros r Hr; cbn; [assumption|].
  apply IH. now apply add_mean_still.
Qed.

Lemma fold_remove_still (l : list float) :
  Forall zeroish l -> forall r, still r -> still (fold_left remove_mean l r).
Proof.
  induction 1 as [|v l Hv _ IH]; intros r Hr; cbn; [assumption|].
  apply IH. now apply remove_mean_still.
Qed.

Lemma calc_mean_still (w : nat) (r : roller) :
  still r -> zeroish (calc_mean w r) \/ calc_mean w r = nan.
Proof.
  intros [Hs _ _ Hp]. unfold calc_mean.
  destruct ((w <=? nobs r)%nat && (0 <? nobs r)%nat); [|now right].
  destruct (nobs r <=? num_consecutive_same_value r)%nat; [exact Hp|].
  destruct ((neg_ct r =? 0)%nat && ltb (div (sum_x r) (of_nat (nobs r))) zero);
    [left; now left|].
  destruct ((neg_ct r =? nobs r)%nat && ltb zero (div (sum_x r) (of_nat (nobs r))));
    [left; now left|].
  unfold zeroish.
  destruct Hs as [-> | ->];
    destruct (of_nat (nobs r)) as [[|]|[|]| |[|] m e]; cbn; auto.
Qed.

Lemma cells_members (values : list float) (s e : nat) (P : float -> Prop) :
  Forall P values -> Forall P (cells values s e).
Proof.
  intros H. apply Forall_forall. intros x Hx. rewrite Forall_forall in H. apply H.
  unfold cells in Hx.
  rewrite <- (firstn_skipn s values). apply in_or_app. right.
  rewrite <- (firstn_skipn (e - s) (skipn s values)). apply in_or_app. now left.
Qed.

Lemma fresh_still (values : list float) (s : nat) :
  Forall zeroish values -> still (fresh values s).
Proof.
  intros H. constructor; cbn; try (now left).
  destruct (nth_in_or_default s values nan) as [Hin | ->]; [|now right].
  left. rewrite Forall_forall in H. now apply H.
Qed.

Lemma roll_still (w : nat) (values : list float) (rows : list nat) :
  Forall zeroish values ->
  forall s0 e0 r0, still r0 ->
    Forall (fun x => zeroish x \/ x = nan) (roll w values rows (s0, e0, r0)).
Proof.
  intros Hv. induction rows as [|i rest IH]; intros s0 e0 r0 Hr; cbn [roll];
    [constructor|].
  destruct (window_bounds w i) as [s e].
  assert (Hnext : still (if (i =? 0)%nat || (e0 <=? s)%nat
                         then fold_left add_mean (cells values s e) (fresh values s)
                         else fold_left add_mean (cells values e0 e)
                                (fold_left remove_mean (cells values s0 s) r0))).
  { destruct ((i =? 0)%nat || (e0 <=? s)%nat).
    - apply fold_add_still; [now apply cells_members | now apply fresh_still].
    - apply fold_add_still; [now apply cells_members|].
      apply fold_remove_still; [now apply cells_members | assumption]. }
  constructor; [now apply calc_mean_still | now apply IH].
Qed.

Lemma rolling_mean_of_zeros (w : nat) (s : list float) :
  Forall zeroish s ->
  Forall (fun x => zeroish x \/ x = nan) (rolling_mean w s).
Proof.
  intros H. unfold rolling_mean.
  assert (Hv : Forall zeroish (map (fun x => if is_inf x then nan else x) s)).
  { apply Forall_forall. intros x Hx. apply in_map_iff in Hx.
    destruct Hx as (y & <- & Hy). rewrite Forall_forall in H.
    destruct (H y Hy) as [-> | ->]; cbn; [now left | now right]. }
  apply roll_still; [exact Hv | now apply fresh_still].
Qed.

Lemma rsi_of_zeros (g l : float) :
  g = zero \/ g = neg_zero \/ g = nan ->
  l = zero \/ l = neg_zero \/ l = nan ->
  fillna0 (rsi_of g l) = zero.
Proof. intros [-> | [-> | ->]] [-> | [-> | ->]]; reflexivity. Qed.

Lemma all_equal_repeat {A : Type} (x : A) (l : list A) :
  Forall (eq x) l -> l = repeat x (length l).
Proof. induction 1 as [|y l <- _ IH]; cbn; [reflexivity | now f_equal]. Qed.

Lemma rsi_flat (c : float) (s : list float) (period : nat) :
  Forall (eq c) s -> compute_rsi s period = repeat zero (length s).
Proof.
  intros H. rewrite <- (length_compute_rsi s period). apply all_equal_repeat.
  apply Forall_forall. intros x Hx. apply In_nth_error in Hx. destruct Hx as [k Hk].
  assert (Hlt : (k < length s)%nat).
  { rewrite <- (length_compute_rsi s period). apply nth_error_Some. congruence. }
  destruct (nth_error (gain s period) k) as [g|] eqn:Hg.
  2: { apply nth_error_None in Hg. rewrite length_gain in Hg. lia. }
  destruct (nth_error (loss s period) k) as [l|] eqn:Hl.
  2: { apply nth_error_None in Hl. rewrite length_loss in Hl. lia. }
  rewrite (nth_error_compute_rsi s period k g l Hg Hl) in Hk. injection Hk as <-.
  symmetry. apply rsi_of_zeros.
  - apply nth_error_In in Hg. unfold gain in Hg.
    assert (Hz : Forall (fun x => x = zero \/ x = neg_zero) (gains (diff s))).
    { eapply Forall_impl; [|apply gains_flat, (diff_flat c), H]. intros a <-. now left. }
    pose proof (rolling_mean_of_zeros period _ Hz) as Hall.
    rewrite Forall_forall in Hall. specialize (Hall g Hg).
    unfold zeroish in Hall. tauto.
  - apply nth_error_In in Hl. unfold loss in Hl.
    assert (Hz : Forall (fun x => x = zero \/ x = neg_zero) (losses (diff s))).
    { eapply Forall_impl; [|apply losses_flat, (diff_flat c), H]. intros a <-. now right. }
    pose proof (rolling_mean_of_zeros period _ Hz) as Hall.
    rewrite Forall_forall in Hall. specialize (Hall l Hl).
    unfold zeroish in Hall. tauto.
Qed.

(** X11: over a Close that is the same at every row (finite or not), the
    momentum of any period is 0 at every row, not the neutral 50: the
    average gain and the average loss are both zero and their quotient is
    the NaN that [fillna] replaces.  So [is_strong_flag] is true at no
    date of such a series. *)
Theorem flat_close_has_zero_momentum (data : frame) (c : float) (period : nat) :
  Forall (fun b => Close b = c) data ->
  compute_rsi (closes data) period = repeat zero (length data) /\
  forall d, truth (is_strong_flag data d) <> Ok true.
Proof.
  intros H.
  assert (Hc : Forall (eq c) (closes data)).
  { unfold closes. apply Forall_forall. intros x Hx. apply in_map_iff in Hx.
    destruct Hx as (b & <- & Hb). rewrite Forall_forall in H. symmetry. now apply H. }
  split.
  - rewrite (rsi_flat c _ period Hc). unfold closes. now rewrite length_map.
  - intros d Ht. apply truth_true, strong_flag_true in Ht.
    destruct Ht as (r & Hr & Hlt). apply value_at_in in Hr.
    destruct Hr as (_ & k & _ & Hk). apply nth_error_In in Hk.
    rewrite (rsi_flat c _ 14 Hc) in Hk. apply repeat_spec in Hk. subst r.
    discriminate.
Qed.

Lemma flat_close_has_zero_momentum_witness :
  Forall (fun b => Close b = eighths 800) flat /\
  compute_rsi (closes flat) 14 = repeat zero (length flat) /\
  forall d, truth (is_strong_flag flat d) <> Ok true.
Proof.
  assert (H : Forall (fun b => Close b = eighths 800) flat).
  { apply Forall_forall. intros b Hb. vm_compute in Hb.
    repeat (destruct Hb as [<- | Hb]; [reflexivity|]). destruct Hb. }
  split; [exact H|]. exact (flat_close_has_zero_momentum flat (eighths 800) 14 H).
Defined.

(** * Which detected patterns the evaluator keeps *)

(** X12: on a series with distinct dates, a pattern found by the scanner
    at anchor row [i] ends at row [i + consolidation_days]; the evaluator
    makes a row of it when row [i + consolidation_days + days_after]
    exists and skips it otherwise.  So the patterns anchored in the last
    [consolidation_days + days_after] rows of the scan are the ones that
    the rates leave out. *)
Theorem patterns_near_the_end_are_skipped
        (np_round2 py_round2 : float -> float)
        (polyfit_slope : list float -> result float) (data : frame)
        (pole_threshold flag_threshold : float) (consolidation_days : nat)
        (days_after : nat) (threshold : float)
        (flags : list PatternRecord) (f : PatternRecord) :
  distinct (index data) = true ->
  detect_flag_patterns polyfit_slope data pole_threshold flag_threshold
                       consolidation_days = Ok flags ->
  In f flags ->
  exists i : nat,
    nth_error (index data) i = Some (date f) /\
    nth_error (index data) (i + consolidation_days) = Some (flag_end f) /\
    ((i + consolidation_days + days_after < length data)%nat ->
     exists row, evaluate np_round2 py_round2 data days_after threshold f = Ok (Some row)) /\
    ((length data <= i + consolidation_days + days_after)%nat ->
     evaluate np_round2 py_round2 data days_after threshold f = Ok None).
Proof.
  intros Hd H Hf. apply distinct_NoDup in Hd.
  destruct (detect_records _ _ _ _ _ _ _ H Hf) as (i & Hi & _ & Ha).
  destruct Ha as [Hdate _ Hfe _ _ _].
  apply iloc_inv in Hdate; [|lia]. apply iloc_inv in Hfe; [|lia].
  destruct Hdate as [_ Hdate], Hfe as [_ Hfe].
  replace (Z.to_nat (i + Z.of_nat consolidation_days))
    with (Z.to_nat i + consolidation_days)%nat in Hfe by lia.
  exists (Z.to_nat i). split; [exact Hdate|]. split; [exact Hfe|]. split.
  - intros Hlt. now apply (evaluate_valid np_round2 py_round2 data days_after threshold f _ Hd Hfe).
  - intros Hge. apply evaluate_late with (Z.of_nat (Z.to_nat i + consolidation_days)).
    + now apply positions_of_label.
    + unfold len. lia.
Qed.

Lemma patterns_near_the_end_are_skipped_witness :
  distinct (index (falling 2)) = true /\
  detect_flag_patterns lsq_slope (falling 2) pole_threshold_default
                       flag_threshold_default 10 = Ok [falling_pattern] /\
  In falling_pattern [falling_pattern] /\
  exists i : nat,
    nth_error (index (falling 2)) i = Some (date falling_pattern) /\
    nth_error (index (falling 2)) (i + 10) = Some (flag_end falling_pattern) /\
    ((i + 10 + 7 < length (falling 2))%nat ->
     exists row, evaluate round2 round2 (falling 2) 7 threshold_default falling_pattern = Ok (Some row)) /\
    ((length (falling 2) <= i + 10 + 7)%nat ->
     evaluate round2 round2 (falling 2) 7 threshold_default falling_pattern = Ok None).
Proof.
  assert (Hd : distinct (index (falling 2)) = true) by (vm_compute; reflexivity).
  assert (H : detect_flag_patterns lsq_slope (falling 2) pole_threshold_default
                flag_threshold_default 10 = Ok [falling_pattern])
    by (vm_compute; reflexivity).
  assert (Hin : In falling_pattern [falling_pattern]) by (simpl; auto).
  split; [exact Hd|]. split; [exact H|]. split; [exact Hin|].
  exact (patterns_near_the_end_are_skipped round2 round2 lsq_slope (falling 2) pole_threshold_default
           flag_threshold_default 10 7 threshold_default [falling_pattern]
           falling_pattern Hd H Hin).
Defined.

(** * The evaluator against the rule of the specification *)

Section EvaluatorRule.

Variables np_round2 py_round2 : float -> float.
Variable data : frame.
Variable days_after : nat.
Variable threshold : float.

Let evaluate_ := evaluate np_round2 py_round2 data days_after threshold.
Let rows_of_ := rows_of np_round2 py_round2 data days_after threshold.

(** What the loop body returns for a pattern is what the specification
    says of it: a row for a valid pattern, nothing for another. *)
Lemma evaluate_follows_the_rule (flag : PatternRecord) (r : option OutcomeRecord) :
  evaluate_ flag = Ok r ->
  match forward_change data days_after flag with
  | Some change =>
      exists row, r = Some row /\ outcome_of np_round2 threshold (flag, change) row
  | None => r = None
  end.
Proof.
  intros H. destruct r as [row|].
  - apply evaluate_some in H.
    destruct H as (k & now & future & Hp & _ & _ & Hnow & Hfut & ->).
    unfold forward_change. rewrite Hp, Nat2Z.id, Hnow, Hfut.
    exists (mkOutcome (pole_start flag) (date flag) (flag_end flag)
                      (trend_direction flag)
                      (np_round2 (mul (div (sub future now) now) hundred))
                      (succeeded threshold (trend_direction flag)
                                 (div (sub future now) now))
                      days_after (py_round2 (mul threshold hundred))).
    split; [reflexivity|]. unfold outcome_of, row_of, successful. cbn.
    destruct (trend_direction flag); auto 10.
  - unfold evaluate_, evaluate in H. unfold forward_change.
    destruct (mem (flag_end flag) (index data)) eqn:Hm; cbn [negb] in H.
    + apply bind_ok in H. destruct H as (k & Hk & H). apply get_loc_ok in Hk.
      rewrite Hk.
      destruct (positions_single _ (closes data) _ _ Hk (length_closes data))
        as (now & Hloc & Hrange & _ & Hnow).
      destruct (Z.leb_spec (len data) (k + Z.of_nat days_after)).
      * assert (E : nth_error (closes data) (Z.to_nat k + days_after) = None).
        { apply nth_error_None. rewrite length_closes. unfold index, len in *.
          rewrite length_map in *. lia. }
        rewrite E. now destruct (nth_error (closes data) (Z.to_nat k)).
      * apply bind_ok in H. destruct H as (fut & _ & H).
        apply bind_ok in H. destruct H as (fep & _ & H). discriminate.
    + assert (E : positions (index data) (flag_end flag) = []).
      { apply loc_absent. intros Hin. apply mem_true in Hin. congruence. }
      now rewrite E.
Qed.

Lemma rows_follow_the_rule (flags : list PatternRecord) :
  (forall flag, In flag flags -> exists r, evaluate_ flag = Ok r) ->
  Forall2 (outcome_of np_round2 threshold)
          (valid_patterns data days_after flags) (rows_of_ flags).
Proof.
  unfold rows_of_, rows_of, valid_patterns.
  induction flags as [|flag rest IH]; intros H; cbn [flat_map]; [constructor|].
  assert (IH' := IH (fun g Hg => H g (or_intror Hg))).
  destruct (H flag (or_introl eq_refl)) as [r Hr].
  fold evaluate_. rewrite Hr. apply evaluate_follows_the_rule in Hr.
  destruct (forward_change data days_after flag) as [change|].
  - destruct Hr as (row & -> & Hrow). cbn. now constructor.
  - subst r. exact IH'.
Qed.

Lemma evaluate_all_each (flags : list PatternRecord) :
  forall t t',
    evaluate_all np_round2 py_round2 data days_after threshold flags t = Ok t' ->
    forall flag, In flag flags -> exists r, evaluate_ flag = Ok r.
Proof.
  induction flags as [|g rest IH]; intros t t' H flag Hin; [destruct Hin|].
  cbn in H. apply bind_ok in H. destruct H as (r & Hr & H).
  destruct Hin as [<- | Hin]; [eauto | now apply (IH _ _ H)].
Qed.

Lemma calculate_each (flags : list PatternRecord) (res : float * float * list OutcomeRecord) :
  calculate_success_probability np_round2 py_round2 data days_after threshold flags
  = Ok res ->
  forall flag, In flag flags -> exists r, evaluate_ flag = Ok r.
Proof.
  unfold calculate_success_probability. destruct flags as [|g rest] eqn:E;
    [intros _ flag []|]. rewrite <- E.
  intros H. apply bind_ok in H. destruct H as (t & Ht & _).
  now apply (evaluate_all_each _ _ _ Ht).
Qed.

Lemma counts_follow_the_rule (valid : list (PatternRecord * float))
      (rows : list OutcomeRecord) :
  Forall2 (outcome_of np_round2 threshold) valid rows ->
  how_many is_bullish rows = valid_count Bullish valid /\
  how_many (fun r => is_bullish r && success r) rows
  = success_count threshold Bullish valid /\
  how_many is_bearish rows = valid_count Bearish valid /\
  how_many (fun r => is_bearish r && success r) rows
  = success_count threshold Bearish valid.
Proof.
  induction 1 as [|[f c] row valid rows (Hrow & _ & Hs) _ IH]; [cbn; auto|].
  destruct IH as (H1 & H2 & H3 & H4).
  destruct Hrow as (_ & _ & _ & Hd). cbn [fst snd] in *.
  rewrite !how_many_cons, H1, H2, H3, H4.
  unfold valid_count, success_count, is_bullish, is_bearish, has_direction.
  cbn [filter fst snd]. rewrite Hd, Hs.
  destruct (trend_direction f), (successful threshold f c); cbn; auto.
Qed.

End EvaluatorRule.

(** C6, as far as the code keeps it.  Every result that the evaluator
    returns has one row for each valid pattern, in the order of the
    patterns; the row bears the pattern's direction and is a success
    exactly when the pattern's forward change is at least the threshold
    (Bullish) or at most the negated threshold (Bearish); and the rate of
    a direction is its success count over its valid count, or 0 when the
    valid count is 0, the patterns of the other direction playing no
    part.  With distinct dates a result is returned whenever some pattern
    is valid.  But for a non-empty list without any valid pattern, where
    both valid counts are 0, no rate is returned: the evaluator raises
    [KeyError]. *)
Theorem success_rule_and_rates
        (np_round2 py_round2 : float -> float)
        (data : frame) (days_after : nat) (threshold : float)
        (flags : list PatternRecord) :
  (forall bp rp rows,
      calculate_success_probability np_round2 py_round2 data days_after threshold flags
      = Ok (bp, rp, rows) ->
      Forall2 (outcome_of np_round2 threshold)
              (valid_patterns data days_after flags) rows /\
      is_rate bp (success_count threshold Bullish (valid_patterns data days_after flags))
              (valid_count Bullish (valid_patterns data days_after flags)) /\
      is_rate rp (success_count threshold Bearish (valid_patterns data days_after flags))
              (valid_count Bearish (valid_patterns data days_after flags))) /\
  (distinct (index data) = true ->
   valid_patterns data days_after flags <> [] ->
   exists bp rp rows,
     calculate_success_probability np_round2 py_round2 data days_after threshold flags
     = Ok (bp, rp, rows)) /\
  (distinct (index data) = true ->
   flags <> [] ->
   valid_patterns data days_after flags = [] ->
   calculate_success_probability np_round2 py_round2 data days_after threshold flags
   = Raise KeyError).
Proof.
  split; [|split].
  - intros bp rp rows H.
    pose proof (rows_follow_the_rule np_round2 py_round2 data days_after threshold
                  flags (calculate_each _ _ _ _ _ _ _ H)) as Hrows.
    apply calculate_ok in H. destruct H as (-> & -> & ->).
    destruct (counts_follow_the_rule np_round2 threshold _ _ Hrows)
      as (H1 & H2 & H3 & H4).
    rewrite H1, H2, H3, H4.
    split; [exact Hrows|]. split; apply rate_is_rate.
  - intros Hd Hvalid.
    assert (Hne : flags <> []) by (intros ->; now apply Hvalid).
    rewrite (calculate_by_rows _ _ _ _ _ _ Hd Hne).
    pose proof (rows_follow_the_rule np_round2 py_round2 data days_after threshold flags
                  (fun f _ => evaluate_returns np_round2 py_round2 data days_after
                                threshold f (distinct_NoDup _ Hd))) as Hrows.
    destruct (rows_of np_round2 py_round2 data days_after threshold flags); [|eauto].
    inversion Hrows as [E|]. now rewrite <- E in Hvalid.
  - intros Hd Hne Hvalid.
    rewrite (calculate_by_rows _ _ _ _ _ _ Hd Hne).
    pose proof (rows_follow_the_rule np_round2 py_round2 data days_after threshold flags
                  (fun f _ => evaluate_returns np_round2 py_round2 data days_after
                                threshold f (distinct_NoDup _ Hd))) as Hrows.
    rewrite Hvalid in Hrows. inversion Hrows. reflexivity.
Qed.

Lemma mixed_detected :
  detect_flag_patterns lsq_slope mixed pole_threshold_default
                       flag_threshold_default 10 = Ok mixed_patterns.
Proof. vm_compute. reflexivity. Qed.

Lemma success_rule_and_rates_witness :
  (distinct (index mixed) = true /\
   valid_patterns mixed 1 mixed_patterns <> [] /\
   valid_count Bullish (valid_patterns mixed 1 mixed_patterns) = 2%nat /\
   success_count threshold_default Bullish (valid_patterns mixed 1 mixed_patterns) = 1%nat /\
   valid_count Bearish (valid_patterns mixed 1 mixed_patterns) = 2%nat /\
   success_count threshold_default Bearish (valid_patterns mixed 1 mixed_patterns) = 1%nat /\
   exists bp rp rows,
     calculate_success_probability round2 round2 mixed 1 threshold_default mixed_patterns
     = Ok (bp, rp, rows) /\
     Forall2 (outcome_of round2 threshold_default)
             (valid_patterns mixed 1 mixed_patterns) rows /\
     is_rate bp (success_count threshold_default Bullish
                               (valid_patterns mixed 1 mixed_patterns))
             (valid_count Bullish (valid_patterns mixed 1 mixed_patterns)) /\
     is_rate rp (success_count threshold_default Bearish
                               (valid_patterns mixed 1 mixed_patterns))
             (valid_count Bearish (valid_patterns mixed 1 mixed_patterns))) /\
  (distinct (index (falling 2)) = true /\
   [falling_pattern] <> [] /\
   valid_patterns (falling 2) 7 [falling_pattern] = [] /\
   calculate_success_probability round2 round2 (falling 2) 7 threshold_default
                                 [falling_pattern] = Raise KeyError).
Proof.
  assert (Hd : distinct (index mixed) = true) by (vm_compute; reflexivity).
  assert (Hv : valid_patterns mixed 1 mixed_patterns <> []) by (vm_compute; discriminate).
  assert (Hd' : distinct (index (falling 2)) = true) by (vm_compute; reflexivity).
  assert (Hne : [falling_pattern] <> []) by discriminate.
  assert (Hnone : valid_patterns (falling 2) 7 [falling_pattern] = [])
    by (vm_compute; reflexivity).
  split.
  - split; [exact Hd|]. split; [exact Hv|].
    split; [vm_compute; reflexivity|]. split; [vm_compute; reflexivity|].
    split; [vm_compute; reflexivity|]. split; [vm_compute; reflexivity|].
    destruct (proj1 (proj2 (success_rule_and_rates round2 round2 mixed 1
                              threshold_default mixed_patterns)) Hd Hv)
      as (bp & rp & rows & H).
    exists bp, rp, rows. split; [exact H|].
    exact (proj1 (success_rule_and_rates round2 round2 mixed 1 threshold_default
                    mixed_patterns) bp rp rows H).
  - split; [exact Hd'|]. split; [exact Hne|]. split; [exact Hnone|].
    exact (proj2 (proj2 (success_rule_and_rates round2 round2 (falling 2) 7
                           threshold_default [falling_pattern])) Hd' Hne Hnone).
Defined.

(** * The exceptions of the core *)




Section ScannerExceptions.

Variable polyfit_slope : list float -> result float.
Variable data : frame.
Variables pole_threshold flag_threshold : float.
Variable consolidation_days : nat.








End ScannerExceptions.




(** * The counters of the evaluator *)

(** X9: when the evaluator returns, the rates it returns are the
    quotients of the counters that its loop ended with, and the table is
    the list of rows that the loop built.  Those counters count the rows:
    [valid_bullish + valid_bearish] is the number of rows, and neither
    success counter exceeds the valid counter of its direction.  The
    table has no more rows than there are patterns, and every row bears
    the dates and the direction of one of the patterns, the horizon of
    the call and its threshold in percent, rounded. *)
Theorem table_comes_from_the_patterns
        (np_round2 py_round2 : float -> float)
        (data : frame) (days_after : nat) (threshold : float)
        (flags : list PatternRecord) (bp rp : float) (rows : list OutcomeRecord) :
  calculate_success_probability np_round2 py_round2 data days_after threshold flags
  = Ok (bp, rp, rows) ->
  exists t,
    evaluate_all np_round2 py_round2 data days_after threshold flags tally0 = Ok t /\
    rows = pattern_details t /\
    bp = rate (bullish_success t) (valid_bullish t) /\
    rp = rate (bearish_success t) (valid_bearish t) /\
    (valid_bullish t + valid_bearish t = length rows)%nat /\
    (bullish_success t <= valid_bullish t)%nat /\
    (bearish_success t <= valid_bearish t)%nat /\
    (length rows <= length flags)%nat /\
    forall row, In row rows ->
      (exists flag, In flag flags /\ row_of flag row) /\
      days_after_ row = days_after /\
      threshold_pct row = py_round2 (mul threshold hundred).
Proof.
  intros H.
  assert (Hloop : exists t,
             evaluate_all np_round2 py_round2 data days_after threshold flags tally0
             = Ok t /\ bp = rate (bullish_success t) (valid_bullish t) /\
             rp = rate (bearish_success t) (valid_bearish t) /\
             rows = pattern_details t).
  { unfold calculate_success_probability in H. destruct flags as [|g rest] eqn:E.
    - injection H as <- <- <-. exists tally0. cbn. auto.
    - rewrite <- E in *. apply bind_ok in H. destruct H as (t & Ht & H).
      apply bind_ok in H. destruct H as (gain_ & _ & H). injection H as <- <- <-.
      exists t. auto. }
  destruct Hloop as (t & Ht & Hbp & Hrp & Hrows). exists t.
  split; [exact Ht|]. split; [exact Hrows|]. split; [exact Hbp|]. split; [exact Hrp|].
  pose proof (evaluate_all_rows _ _ _ _ _ _ _ _ Ht) as Et.
  destruct (tally_counts (rows_of np_round2 py_round2 data days_after threshold flags)
                         tally0) as (Hd & Hvb & Hsb & Hvr & Hsr).
  cbn zeta in *. rewrite <- Et in *.
  cbn [tally0 pattern_details valid_bullish valid_bearish bullish_success
       bearish_success app] in *.
  rewrite Hrows, Hd, Hvb, Hsb, Hvr, Hsr, !Nat.add_0_r.
  destruct (directions_partition
              (rows_of np_round2 py_round2 data days_after threshold flags))
    as (Hsum & Hb & Hr).
  split; [exact Hsum|]. split; [exact Hb|]. split; [exact Hr|].
  split; [apply rows_of_count|].
  intros row Hrow. apply rows_of_origin in Hrow. destruct Hrow as (flag & Hin & Hev).
  apply evaluate_row_of in Hev. destruct Hev as (Hrow & Hh & Hthr).
  split; [eauto | auto].
Qed.

Lemma table_comes_from_the_patterns_witness :
  exists bp rp rows,
    calculate_success_probability round2 round2 mixed 1 threshold_default mixed_patterns
    = Ok (bp, rp, rows) /\
    exists t,
      evaluate_all round2 round2 mixed 1 threshold_default mixed_patterns tally0 = Ok t /\
      rows = pattern_details t /\
      bp = rate (bullish_success t) (valid_bullish t) /\
      rp = rate (bearish_success t) (valid_bearish t) /\
      (valid_bullish t + valid_bearish t = length rows)%nat /\
      (bullish_success t <= valid_bullish t)%nat /\
      (bearish_success t <= valid_bearish t)%nat /\
      (length rows <= length mixed_patterns)%nat /\
      forall row, In row rows ->
        (exists flag, In flag mixed_patterns /\ row_of flag row) /\
        days_after_ row = 1%nat /\
        threshold_pct row = round2 (mul threshold_default hundred).
Proof.
  pose (rows := rows_of round2 round2 mixed 1 threshold_default mixed_patterns).
  pose (bp := rate (how_many (fun r => is_bullish r && success r) rows)
                   (how_many is_bullish rows)).
  pose (rp := rate (how_many (fun r => is_bearish r && success r) rows)
                   (how_many is_bearish rows)).
  assert (H : calculate_success_probability round2 round2 mixed 1 threshold_default
                mixed_patterns = Ok (bp, rp, rows)) by (vm_compute; reflexivity).
  exists bp, rp, rows. split; [exact H|].
  exact (table_comes_from_the_patterns round2 round2 mixed 1 threshold_default
           mixed_patterns bp rp rows H).
Defined.
